(** * Kinetics video loader (slowfast/datasets/kinetics.py)

    A shallow embedding of the [Kinetics] dataset class: the manifest
    loader ([_construct_loader], [_get_chunk]), the sampling-parameter
    selection and the bounded retry loop of [__getitem__], and the
    bounding-box alignment done on the success path.

    The external collaborators (file system, pandas reader, video
    container, decoder, random source, pickle side files) are answers
    recorded in a [world]; everything else is the code of the class. *)

From Stdlib Require Import ZArith List Bool Lia QArith Ascii DecimalString.
From stdpp Require Import gmap strings.
Import ListNotations.

Local Open Scope string_scope.
Local Open Scope Z_scope.

(* ===================================================================== *)
(** ** Python values and exceptions *)
(* ===================================================================== *)

(** Arguments of a [str.format] call. *)
Inductive pyval : Type :=
| PInt (n : Z)
| PStr (s : string)
| PList (l : list string).

(** The exceptions the modelled code can raise.  [RuntimeError] and
    [AssertionError] keep the format template and its arguments. *)
Inductive exn : Type :=
| AssertionError (template : string) (args : list pyval)
| RuntimeError (template : string) (args : list pyval)
| NotImplementedError (template : string) (args : list pyval)
| ZeroDivisionError
| IndexError
| KeyError (key : pyval)
| ValueError
| AttributeError (attr : string)
| UnboundLocalError (var : string)
| RecursionError
| FileNotFoundError (path : string)
| DecoderError.

(** A computation that returns a value or raises. *)
Definition result (A : Type) : Type := exn + A.

Definition ret {A} (a : A) : result A := inr a.
Definition raise {A} (e : exn) : result A := inl e.
Definition bind {A B} (m : result A) (k : A -> result B) : result B :=
  match m with
  | inl e => inl e
  | inr a => k a
  end.

Notation "'do' x <- m ; k" := (bind m (fun x => k))
  (at level 10, x pattern, m at level 100, k at level 200).

Definition raised {A} (m : result A) : Prop :=
  match m with inl _ => True | inr _ => False end.

(** [l[i]] on a Python list: negative indices count from the end,
    anything outside [-len, len) raises [IndexError]. *)
Definition py_getitem {A} (l : list A) (i : Z) : result A :=
  let n := Z.of_nat (length l) in
  let j := if i <? 0 then i + n else i in
  if (j <? 0) || (n <=? j) then raise IndexError
  else match nth_error l (Z.to_nat j) with
       | Some a => ret a
       | None => raise IndexError
       end.

(** [a // b] and [a % b] on Python ints. *)
Definition py_floordiv (a b : Z) : result Z :=
  if b =? 0 then raise ZeroDivisionError else ret (a / b).

Definition py_mod (a b : Z) : result Z :=
  if b =? 0 then raise ZeroDivisionError else ret (a mod b).

(** [str(n)] for an int. *)
Definition py_str (n : Z) : string := NilZero.string_of_int (Z.to_int n).

(** [int(x)] for a float: truncation towards zero. *)
Definition py_int_of_float (q : Q) : Z := Z.quot (Qnum q) (Z.pos (Qden q)).

(* ===================================================================== *)
(** ** Strings *)
(* ===================================================================== *)

Fixpoint is_prefix (p s : string) : bool :=
  match p, s with
  | EmptyString, _ => true
  | String a p', String b s' => Ascii.eqb a b && is_prefix p' s'
  | String _ _, EmptyString => false
  end.

Definition string_rev (s : string) : string :=
  String.string_of_list_ascii (rev (String.list_ascii_of_string s)).

(** [s.endswith(p)]. *)
Definition endswith (s p : string) : bool :=
  is_prefix (string_rev p) (string_rev s).

(** [s.startswith(p)]. *)
Definition startswith (s p : string) : bool := is_prefix p s.

(** The scan of [s.split(sep)] for a non-empty [sep]: [cur] is the field
    being read, [skip] the number of separator characters still to drop
    after a match. *)
Fixpoint split_scan (sep s : string) (skip : nat) (cur : string) {struct s}
  : list string :=
  match s with
  | EmptyString => [cur]
  | String c s' =>
      match skip with
      | S k => split_scan sep s' k cur
      | O =>
          if is_prefix sep s
          then cur :: split_scan sep s' (Nat.pred (String.length sep)) ""
          else split_scan sep s' O (cur +:+ String c "")
      end
  end.

(** [s.split(sep)]: an empty separator raises [ValueError]. *)
Definition py_split (s sep : string) : result (list string) :=
  match sep with
  | EmptyString => raise ValueError
  | _ => ret (split_scan sep s O "")
  end.

(** [s[start:stop]] with integer bounds (negative bounds count from the
    end, both are clamped to the string). *)
Definition py_clamp (len i : Z) : Z :=
  let j := if i <? 0 then i + len else i in
  Z.max 0 (Z.min len j).

Definition py_slice (s : string) (start stop : Z) : string :=
  let len := Z.of_nat (String.length s) in
  let a := py_clamp len start in
  let b := py_clamp len stop in
  if b <=? a then "" else String.substring (Z.to_nat a) (Z.to_nat (b - a)) s.

(** [os.path.join(a, b)] (posixpath). *)
Definition os_path_join (a b : string) : string :=
  if startswith b "/" then b
  else if (String.eqb a "") || endswith a "/" then a +:+ b
  else a +:+ "/" +:+ b.

(** Whitespace skipped by [int(str)] on an ASCII string: tab, line
    feed, vertical tab, form feed, carriage return and space. *)
Definition is_space (c : ascii) : bool :=
  let n := nat_of_ascii c in
  ((9 <=? n) && (n <=? 13) || (n =? 32))%nat.

Definition digit_of (c : ascii) : option Z :=
  let n := nat_of_ascii c in
  if ((48 <=? n) && (n <=? 57))%nat then Some (Z.of_nat n - 48) else None.

Fixpoint lstrip (l : list ascii) : list ascii :=
  match l with
  | c :: l' => if is_space c then lstrip l' else l
  | [] => []
  end.

Definition strip (l : list ascii) : list ascii :=
  rev (lstrip (rev (lstrip l))).

(** Digits of a decimal literal; a single underscore may separate two
    digits.  [after_digit] tells whether the previous character was a
    digit, [acc] is the value read so far. *)
Fixpoint read_digits (l : list ascii) (after_digit : bool) (acc : Z)
  : option Z :=
  match l with
  | [] => if after_digit then Some acc else None
  | c :: l' =>
      match digit_of c with
      | Some d => read_digits l' true (10 * acc + d)
      | None =>
          if Ascii.eqb c "_"%char && after_digit
          then match l' with
               | c' :: _ =>
                   match digit_of c' with
                   | Some _ => read_digits l' false acc
                   | None => None
                   end
               | [] => None
               end
          else None
      end
  end.

(** The number of digits of a decimal literal; the interpreter refuses
    a literal with more than [max_str_digits] of them. *)
Definition count_digits (l : list ascii) : Z :=
  Z.of_nat
    (length
       (List.filter
          (fun c => match digit_of c with Some _ => true | None => false end)
          l)).

Definition max_str_digits : Z := 4300.

(** [int(s)] for an ASCII string, base 10. *)
Definition py_int_of_str (s : string) : result Z :=
  let body := strip (String.list_ascii_of_string s) in
  let parsed :=
    match body with
    | c :: l' =>
        if Ascii.eqb c "-"%char then option_map Z.opp (read_digits l' false 0)
        else if Ascii.eqb c "+"%char then read_digits l' false 0
        else read_digits body false 0
    | [] => None
    end in
  match parsed with
  | Some n =>
      if max_str_digits <? count_digits body then raise ValueError
      else ret n
  | None => raise ValueError
  end.

(* ===================================================================== *)
(** ** Configuration, dataset object and the outside world *)
(* ===================================================================== *)

(** The entries of [cfg] the class reads.  Entries that are only handed
    to the decoder or to the transforms are part of their answers. *)
Record DataCfg := {
  PATH_TO_DATA_DIR : string;
  PATH_PREFIX : string;
  PATH_LABEL_SEPARATOR : string;
  SKIP_ROWS : Z;
  LOADER_CHUNK_SIZE : Z;
  TIME_DIFF_PROB : Q;
  TRAIN_JITTER_SCALES : list Z;
  TRAIN_CROP_SIZE : Z;
  TEST_CROP_SIZE : Z
}.

Record TestCfg := {
  NUM_SPATIAL_CROPS : Z;
  NUM_ENSEMBLE_VIEWS : Z
}.

Record ModelCfg := {
  NUM_CLASSES : Z
}.

Record CfgNode := {
  DATA : DataCfg;
  TEST : TestCfg;
  MODEL : ModelCfg
}.

(** A polygon is a list of (x, y) points; the side file of a video maps
    a video name to a map from frame names to the polygons of the frame. *)
Definition polygon : Type := list (Q * Q).
Definition rectangle : Type := list (list Z).

(** The instance attributes of [Kinetics]. *)
Record Kinetics := {
  mode : string;
  cfg : CfgNode;
  _video_meta : gmap Z (gmap string Z);
  _num_retries : Z;
  _num_epoch : Q;
  _num_yielded : Z;
  skip_rows : Z;
  p_convert_dt : Q;
  use_chunk_loading : bool;
  _path_to_videos : list string;
  _labels : list Z;
  _spatial_temporal_idx : list Z;
  cur_iter : Z;
  chunk_epoch : Z;
  epoch : Q;
  kpts : gmap Z (gmap string (gmap string (list polygon)))
}.

(** What [pandas.read_csv(..., chunksize, skiprows)] followed by taking
    the first chunk does: it raises, it yields no chunk at all, or it
    yields a chunk whose flattened cells are given. *)
Inductive csv_answer : Type :=
| CsvRaises
| CsvNoChunk
| CsvChunk (cells : list string).

Inductive container_answer : Type :=
| ContainerRaises
| ContainerNone
| ContainerOk.

(** What [decoder.decode] does: it raises, or returns
    [(frames, time_idx, tdiff, bbox_index)]. *)
Inductive decode_answer (tensor : Type) : Type :=
| DecodeRaises
| Decoded (frames : option (list (option tensor)))
          (time_idx : list (list Z))
          (tdiff : bool)
          (bbox_index : list (list Z)).
Arguments DecodeRaises {tensor}.
Arguments Decoded {tensor}.

(** The answers of the collaborators.  [read_csv] is indexed by the
    number of reads already made on the handle; [get_video_container],
    [decode] and [random_draw] by the attempt [i_try] of the fetch. *)
Record world (tensor : Type) := {
  manifest : string -> option (list string);
  read_csv : string -> nat -> Z -> csv_answer;
  recursion_limit : nat;
  get_video_container : Z -> string -> container_answer;
  decode : Z -> Z -> decode_answer tensor;
  random_draw : Z -> Z;
  pickle_file : string -> option (gmap string (gmap string (list polygon)))
}.
Arguments manifest {tensor}.
Arguments read_csv {tensor}.
Arguments recursion_limit {tensor}.
Arguments get_video_container {tensor}.
Arguments decode {tensor}.
Arguments random_draw {tensor}.
Arguments pickle_file {tensor}.

(** [x in l] for strings. *)
Definition str_in (x : string) (l : list string) : bool :=
  existsb (String.eqb x) l.

(** Attribute updates. *)
Definition with_skip_rows (self : Kinetics) (v : Z) : Kinetics :=
  {| mode := mode self; cfg := cfg self; _video_meta := _video_meta self;
     _num_retries := _num_retries self; _num_epoch := _num_epoch self;
     _num_yielded := _num_yielded self; skip_rows := v;
     p_convert_dt := p_convert_dt self;
     use_chunk_loading := use_chunk_loading self;
     _path_to_videos := _path_to_videos self; _labels := _labels self;
     _spatial_temporal_idx := _spatial_temporal_idx self;
     cur_iter := cur_iter self; chunk_epoch := chunk_epoch self;
     epoch := epoch self; kpts := kpts self |}.

Definition with_epoch (self : Kinetics) (v : Q) : Kinetics :=
  {| mode := mode self; cfg := cfg self; _video_meta := _video_meta self;
     _num_retries := _num_retries self; _num_epoch := _num_epoch self;
     _num_yielded := _num_yielded self; skip_rows := skip_rows self;
     p_convert_dt := p_convert_dt self;
     use_chunk_loading := use_chunk_loading self;
     _path_to_videos := _path_to_videos self; _labels := _labels self;
     _spatial_temporal_idx := _spatial_temporal_idx self;
     cur_iter := cur_iter self; chunk_epoch := chunk_epoch self;
     epoch := v; kpts := kpts self |}.

Definition with_kpts (self : Kinetics)
    (v : gmap Z (gmap string (gmap string (list polygon)))) : Kinetics :=
  {| mode := mode self; cfg := cfg self; _video_meta := _video_meta self;
     _num_retries := _num_retries self; _num_epoch := _num_epoch self;
     _num_yielded := _num_yielded self; skip_rows := skip_rows self;
     p_convert_dt := p_convert_dt self;
     use_chunk_loading := use_chunk_loading self;
     _path_to_videos := _path_to_videos self; _labels := _labels self;
     _spatial_temporal_idx := _spatial_temporal_idx self;
     cur_iter := cur_iter self; chunk_epoch := chunk_epoch self;
     epoch := epoch self; kpts := v |}.

(** The four appends of one manifest row. *)
Definition append_entry (self : Kinetics) (clip_idx : Z) (path : string)
    (label : Z) : Kinetics :=
  {| mode := mode self; cfg := cfg self;
     _video_meta := <[clip_idx := ∅]> (_video_meta self);
     _num_retries := _num_retries self; _num_epoch := _num_epoch self;
     _num_yielded := _num_yielded self; skip_rows := skip_rows self;
     p_convert_dt := p_convert_dt self;
     use_chunk_loading := use_chunk_loading self;
     _path_to_videos := _path_to_videos self ++ [path];
     _labels := _labels self ++ [label];
     _spatial_temporal_idx := _spatial_temporal_idx self ++ [0];
     cur_iter := cur_iter self; chunk_epoch := chunk_epoch self;
     epoch := epoch self; kpts := kpts self |}.

(** The resets at the top of [_construct_loader]. *)
Definition reset_loader (self : Kinetics) : Kinetics :=
  {| mode := mode self; cfg := cfg self; _video_meta := _video_meta self;
     _num_retries := _num_retries self; _num_epoch := _num_epoch self;
     _num_yielded := _num_yielded self;
     skip_rows := SKIP_ROWS (DATA (cfg self));
     p_convert_dt := p_convert_dt self;
     use_chunk_loading := use_chunk_loading self;
     _path_to_videos := []; _labels := [];
     _spatial_temporal_idx := [];
     cur_iter := 0; chunk_epoch := 0;
     epoch := 0%Q; kpts := kpts self |}.

(* ===================================================================== *)
(** ** Manifest loader *)
(* ===================================================================== *)

Section Loader.
Context {tensor : Type}.
Variable w : world tensor.

(** [_get_chunk]: one read per call; a rejected read sets [skip_rows]
    to zero and calls [_get_chunk] again.  [frames] is the number of
    calls the interpreter stack still allows, [reads] the number of
    reads made so far.  Returns the new [skip_rows], the number of reads
    and the rows. *)
Fixpoint _get_chunk (path_to_file : string) (frames : nat) (reads : nat)
    (skip : Z) : Z * nat * result (list string) :=
  match frames with
  | O => (skip, reads, raise RecursionError)
  | S frames' =>
      match read_csv w path_to_file reads skip with
      | CsvRaises => _get_chunk path_to_file frames' (S reads) 0
      | CsvNoChunk => (skip, S reads, raise (UnboundLocalError "chunk"))
      | CsvChunk cells => (skip, S reads, ret cells)
      end
  end.

(** The body of the loop over the rows up to the appends: the fields of
    the row, the path and the label. *)
Definition parse_row (c : CfgNode) (path_to_file path_label : string)
  : result (string * Z) :=
  do fetch_info <- py_split path_label (PATH_LABEL_SEPARATOR (DATA c));
  do pl <-
    match fetch_info with
    | [path; label] => do n <- py_int_of_str label; ret (path, n)
    | [path; fn; label] => do n <- py_int_of_str label; ret (path, n)
    | [path] => ret (path, 0)
    | _ => raise (RuntimeError
                    "Failed to parse video fetch {} info {} retries."
                    [PStr path_to_file; PList fetch_info])
    end;
  ret (os_path_join (PATH_PREFIX (DATA c)) (fst pl), snd pl).

(** [for clip_idx, path_label in enumerate(rows)]. *)
Fixpoint load_rows (path_to_file : string) (rows : list string)
    (clip_idx : Z) (self : Kinetics) : result Kinetics :=
  match rows with
  | [] => ret self
  | path_label :: rows' =>
      do e <- parse_row (cfg self) path_to_file path_label;
      load_rows path_to_file rows' (clip_idx + 1)
        (append_entry self clip_idx (fst e) (snd e))
  end.

Definition manifest_path (self : Kinetics) : string :=
  os_path_join (PATH_TO_DATA_DIR (DATA (cfg self))) (mode self +:+ ".csv").

(** The rows of the manifest: a chunk of the tabular reader when chunk
    loading is on, the lines of the file otherwise. *)
Definition read_rows (self : Kinetics) (lines : list string)
  : result (Kinetics * list string) :=
  if use_chunk_loading self
  then match _get_chunk (manifest_path self) (recursion_limit w) O
               (skip_rows self) with
       | (skip, _, r) => do rows <- r; ret (with_skip_rows self skip, rows)
       end
  else ret (self, lines).

(** [_construct_loader].  The object is only handed out when the call
    returns, so a raise keeps no state. *)
Definition _construct_loader (self : Kinetics) : result Kinetics :=
  let path_to_file := manifest_path self in
  match manifest w path_to_file with
  | None => raise (AssertionError "{} dir not found" [PStr path_to_file])
  | Some lines =>
      do sr <- read_rows (reset_loader self) lines;
      do self <- load_rows path_to_file (snd sr) 0 (fst sr);
      if 0 <? Z.of_nat (length (_path_to_videos self)) then ret self
      else raise (AttributeError "_split_idx")
  end.

(** The attributes set by [__init__] before it calls
    [_construct_loader]. *)
Definition blank (c : CfgNode) (m : string) (num_retries : Z) : Kinetics :=
  {| mode := m; cfg := c; _video_meta := ∅;
     _num_retries := num_retries; _num_epoch := 0%Q; _num_yielded := 0;
     skip_rows := SKIP_ROWS (DATA c);
     p_convert_dt := TIME_DIFF_PROB (DATA c);
     use_chunk_loading :=
       str_in m ["train"] && (0 <? LOADER_CHUNK_SIZE (DATA c));
     _path_to_videos := []; _labels := []; _spatial_temporal_idx := [];
     cur_iter := 0; chunk_epoch := 0; epoch := 0%Q; kpts := ∅ |}.

(** [__init__]. *)
Definition __init__ (c : CfgNode) (m : string) (num_retries : Z)
  : result Kinetics :=
  if negb (str_in m ["train"; "val"; "test"])
  then raise (AssertionError "Split '{}' not supported for Kinetics" [PStr m])
  else
    do self <- _construct_loader (blank c m num_retries);
    ret (with_kpts self ∅).

(** [_set_epoch_num], [num_videos] and [__len__]. *)
Definition _set_epoch_num (self : Kinetics) (e : Q) : Kinetics :=
  with_epoch self e.

Definition num_videos (self : Kinetics) : Z :=
  Z.of_nat (length (_path_to_videos self)).

Definition __len__ (self : Kinetics) : Z := num_videos self.

End Loader.

(* ===================================================================== *)
(** ** Sampling-parameter selection *)
(* ===================================================================== *)

Record sampling := {
  temporal_sample_index : Z;
  spatial_sample_index : Z;
  min_scale : Z;
  max_scale : Z;
  crop_size : Z
}.

(** The first part of [__getitem__], up to [num_decode = 1]. *)
Definition sampling_params (self : Kinetics) (index : Z) : result sampling :=
  if str_in (mode self) ["train"; "val"] then
    do mn <- py_getitem (TRAIN_JITTER_SCALES (DATA (cfg self))) 0;
    do mx <- py_getitem (TRAIN_JITTER_SCALES (DATA (cfg self))) 1;
    let crop := 256 in
    if negb (mn =? mx) then raise (AssertionError "" [])
    else if negb (mx =? crop) then raise (AssertionError "" [])
    else ret {| temporal_sample_index := -1; spatial_sample_index := -1;
                min_scale := mn; max_scale := mx; crop_size := crop |}
  else if str_in (mode self) ["test"] then
    let crops := NUM_SPATIAL_CROPS (TEST (cfg self)) in
    do st <- py_getitem (_spatial_temporal_idx self) index;
    do t <- py_floordiv st crops;
    do s <- (if 1 <? crops
             then do st' <- py_getitem (_spatial_temporal_idx self) index;
                  py_mod st' crops
             else ret 1);
    do sc <- (if 1 <? crops
              then ret (TEST_CROP_SIZE (DATA (cfg self)),
                        TEST_CROP_SIZE (DATA (cfg self)))
              else do j <- py_getitem (TRAIN_JITTER_SCALES (DATA (cfg self))) 0;
                   ret (j, j));
    if negb (fst sc =? snd sc) then raise (AssertionError "" [])
    else ret {| temporal_sample_index := t; spatial_sample_index := s;
                min_scale := fst sc; max_scale := snd sc;
                crop_size := TEST_CROP_SIZE (DATA (cfg self)) |}
  else raise (NotImplementedError "Does not support {} mode" [PStr (mode self)]).

(* ===================================================================== *)
(** ** Bounding-box alignment *)
(* ===================================================================== *)

(** [min(l)] and [max(l)]: an empty list raises [ValueError]. *)
Definition py_min (l : list Z) : result Z :=
  match l with
  | [] => raise ValueError
  | x :: l' => ret (fold_left Z.min l' x)
  end.

Definition py_max (l : list Z) : result Z :=
  match l with
  | [] => raise ValueError
  | x :: l' => ret (fold_left Z.max l' x)
  end.

(** The body of [for box in bounding_boxes]. *)
Definition align_box (box : polygon) : result rectangle :=
  let x_pts := map (fun coord => py_int_of_float (fst coord)) box in
  let y_pts := map (fun coord => py_int_of_float (snd coord)) box in
  do x_min <- py_min x_pts;
  do x_max <- py_max x_pts;
  do y_min <- py_min y_pts;
  do y_max <- py_max y_pts;
  ret [[x_min; y_min]; [x_max; y_min]; [x_max; y_max]; [x_min; y_max]].

Fixpoint map_result {A B} (f : A -> result B) (l : list A) : result (list B) :=
  match l with
  | [] => ret []
  | a :: l' => do b <- f a; do bs <- map_result f l'; ret (b :: bs)
  end.

(** [d[k]] on a dict with string keys. *)
Definition dict_getitem {V} (d : gmap string V) (k : string) : result V :=
  match d !! k with
  | Some v => ret v
  | None => raise (KeyError (PStr k))
  end.

(** The name under which a video is stored in its side file. *)
Definition vid_name_of (path : string) : result string :=
  do parts <- py_split path "/";
  do last <- py_getitem parts (-1);
  ret (py_slice last 0 (-10) +:+ ".mp4").

(** The body of [for frame_num in bbox_index_decoded[0]]. *)
Definition align_frame (self : Kinetics) (index : Z)
    (store : gmap string (gmap string (list polygon))) (frame_num : Z)
  : result (list rectangle) :=
  let frame_name := "frame" +:+ py_str frame_num in
  do path <- py_getitem (_path_to_videos self) index;
  do vid_name <- vid_name_of path;
  do per_video <- dict_getitem store vid_name;
  do bounding_boxes <- dict_getitem per_video frame_name;
  map_result align_box bounding_boxes.

(** [torch.Tensor(bboxes)]: the frames must carry the same number of
    boxes. *)
Definition torch_Tensor (bboxes : list (list rectangle))
  : result (list (list rectangle)) :=
  match bboxes with
  | [] => ret bboxes
  | b :: bs =>
      if forallb (fun b' => Nat.eqb (length b') (length b)) bs
      then ret bboxes else raise ValueError
  end.

(** The side file of the video at [index]. *)
Definition kpts_path (index_str : string) : string :=
  "./data/video" +:+ py_slice index_str 40 (-10) +:+ "_kpts".

(* ===================================================================== *)
(** ** The fetch: [__getitem__] *)
(* ===================================================================== *)

(** The tuple returned by a fetch. *)
Record item (packed : Type) := {
  frames_out : packed;
  label_out : Z;
  index_out : Z;
  time_idx_out : list (list Z);
  aux_out : gmap string Z;
  bboxes_out : list (list rectangle)
}.
Arguments frames_out {packed}.
Arguments label_out {packed}.
Arguments index_out {packed}.
Arguments time_idx_out {packed}.
Arguments aux_out {packed}.
Arguments bboxes_out {packed}.

(** How one pass through the body of the retry loop ends. *)
Inductive outcome (A : Type) : Type :=
| Continue (index : Z)
| Return (a : A)
| Raise (e : exn).
Arguments Continue {A}.
Arguments Return {A}.
Arguments Raise {A}.

(** What a fetch leaves behind: the indices the passes through the loop
    body were made on (the latest first), the object with its side-file
    cache, and the tuple or the exception. *)
Record fetched (packed : Type) := {
  tried : list Z;
  self_after : Kinetics;
  returned : result (item packed)
}.
Arguments tried {packed}.
Arguments self_after {packed}.
Arguments returned {packed}.

Definition attempts {packed} (f : fetched packed) : nat := length (tried f).

Section Fetch.
Context {tensor packed : Type}.
Variable w : world tensor.

(** The transforms: clone, float, division by 255 and permutation to
    C T H W; [utils.spatial_sampling]; [utils.pack_pathway_output]. *)
Variable to_float_cthw : tensor -> tensor.
Variable spatial_sampling : CfgNode -> bool -> sampling -> tensor -> tensor.
Variable pack_pathway_output : CfgNode -> tensor -> packed.

(** [random.randint(a, b)] at attempt [i_try]. *)
Definition py_randint (i_try a b : Z) : result Z :=
  if b <? a then raise ValueError
  else ret (a + random_draw w i_try mod (b - a + 1)).

(** [index = random.randint(0, len(self._path_to_videos) - 1)]. *)
Definition another_one {A} (self : Kinetics) (i_try : Z) : outcome A :=
  match py_randint i_try 0 (Z.of_nat (length (_path_to_videos self)) - 1) with
  | inl e => Raise e
  | inr j => Continue j
  end.

(** The [if video_container is None] block. *)
Definition after_container_failure {A} (self : Kinetics) (i_try index : Z)
  : outcome A :=
  if negb (str_in (mode self) ["test"]) && (_num_retries self / 8 <? i_try)
  then another_one self i_try
  else Continue index.

(** The [if frames_decoded is None or None in frames_decoded] block. *)
Definition after_decode_failure {A} (self : Kinetics) (i_try index : Z)
  : outcome A :=
  if negb (str_in (mode self) ["test"]) then
    match py_mod i_try (_num_retries self / 8) with
    | inl e => Raise e
    | inr r => if r =? 0 then another_one self i_try else Continue index
    end
  else Continue index.

(** [frames_decoded is None or None in frames_decoded]. *)
Definition decode_failed (frames : option (list (option tensor))) : bool :=
  match frames with
  | None => true
  | Some l => existsb (fun f => match f with None => true | Some _ => false end) l
  end.

(** [video_meta=self._video_meta[index] if len(self._video_meta) < 5e6
    else {}]. *)
Definition video_meta_arg (self : Kinetics) (index : Z)
  : result (gmap string Z) :=
  if Z.of_nat (size (_video_meta self)) <? 5000000 then
    match _video_meta self !! index with
    | Some m => ret m
    | None => raise (KeyError (PInt index))
    end
  else ret ∅.

(** [if index not in self.kpts: ...] followed by
    [kpts = self.kpts[index]]. *)
Definition load_kpts (self : Kinetics) (index : Z)
  : result (Kinetics * gmap string (gmap string (list polygon))) :=
  match kpts self !! index with
  | Some store => ret (self, store)
  | None =>
      do index_str <- py_getitem (_path_to_videos self) index;
      match pickle_file w (kpts_path index_str) with
      | None => raise (FileNotFoundError (kpts_path index_str))
      | Some store => ret (with_kpts self (<[index := store]> (kpts self)), store)
      end
  end.

(** The success path: from the loop over the decoded frame numbers to
    the [return]. *)
Definition finish (self : Kinetics) (p : sampling) (index : Z)
    (store : gmap string (gmap string (list polygon)))
    (frames : list (option tensor)) (time_idx : list (list Z))
    (bbox_index : list (list Z)) : result (item packed) :=
  do frame_nums <- py_getitem bbox_index 0;
  do bboxes <- map_result (align_frame self index store) frame_nums;
  do label0 <- py_getitem (_labels self) index;
  let label :=
    if (NUM_CLASSES (MODEL (cfg self)) =? 2) && (0 <? label0) then 1
    else label0 in
  do f0 <- py_getitem frames 0;
  do f <- match f0 with Some f => ret f | None => raise (AttributeError "clone") end;
  do t <- py_getitem time_idx 0;
  let f := to_float_cthw f in
  let f := spatial_sampling (cfg self) (str_in (mode self) ["train"]) p f in
  let f := pack_pathway_output (cfg self) f in
  do tb <- torch_Tensor bboxes;
  ret {| frames_out := f; label_out := label; index_out := index;
         time_idx_out := [t]; aux_out := ∅; bboxes_out := tb |}.

(** One pass through the body of [for i_try in range(self._num_retries)]. *)
Definition attempt (self : Kinetics) (p : sampling) (i_try index : Z)
  : Kinetics * outcome (item packed) :=
  match py_getitem (_path_to_videos self) index with
  | inl e => (self, Raise e)
  | inr path =>
      match get_video_container w i_try path with
      | ContainerRaises | ContainerNone =>
          (self, after_container_failure self i_try index)
      | ContainerOk =>
          match video_meta_arg self index with
          | inl e => (self, Raise e)
          | inr _ =>
              match decode w i_try index with
              | DecodeRaises => (self, Raise DecoderError)
              | Decoded frames time_idx _ bbox_index =>
                  match load_kpts self index with
                  | inl e => (self, Raise e)
                  | inr (self', store) =>
                      if decode_failed frames
                      then (self', after_decode_failure self' i_try index)
                      else
                        match finish self' p index store
                                (match frames with Some l => l | None => [] end)
                                time_idx bbox_index with
                        | inl e => (self', Raise e)
                        | inr it => (self', Return it)
                        end
                  end
              end
          end
      end
  end.

(** The [else] clause of the loop. *)
Definition exhausted (self : Kinetics) (last : option Z) (index : Z)
  : result (item packed) :=
  do path <- py_getitem (_path_to_videos self) index;
  match last with
  | None => raise (UnboundLocalError "i_try")
  | Some i_try =>
      raise (RuntimeError "Failed to fetch video idx {} from {}; after {} trials"
                          [PInt index; PStr path; PInt i_try])
  end.

(** [for i_try in range(self._num_retries): ... else: raise ...];
    [todo] passes remain, [i_try] is the next value of the loop variable
    and [last] its current binding. *)
Fixpoint retry (p : sampling) (todo : nat) (i_try : Z) (last : option Z)
    (done : list Z) (self : Kinetics) (index : Z) : fetched packed :=
  match todo with
  | O => {| tried := done; self_after := self;
            returned := exhausted self last index |}
  | S todo' =>
      match attempt self p i_try index with
      | (self', Continue index') =>
          retry p todo' (i_try + 1) (Some i_try) (index :: done) self' index'
      | (self', Return it) =>
          {| tried := index :: done; self_after := self'; returned := ret it |}
      | (self', Raise e) =>
          {| tried := index :: done; self_after := self'; returned := raise e |}
      end
  end.

Definition __getitem__ (self : Kinetics) (index : Z) : fetched packed :=
  match sampling_params self index with
  | inl e => {| tried := []; self_after := self; returned := raise e |}
  | inr p => retry p (Z.to_nat (_num_retries self)) 0 None [] self index
  end.

End Fetch.

(* ===================================================================== *)
(** ** Notions used in the statements *)
(* ===================================================================== *)

(** [y] is the least (greatest) element of [l]. *)
Definition is_min (y : Z) (l : list Z) : Prop :=
  In y l /\ forall x, In x l -> y <= x.
Definition is_max (y : Z) (l : list Z) : Prop :=
  In y l /\ forall x, In x l -> x <= y.

(** The integer-truncated x and y coordinates of a polygon. *)
Definition xs_of (box : polygon) : list Z :=
  map (fun coord => py_int_of_float (fst coord)) box.
Definition ys_of (box : polygon) : list Z :=
  map (fun coord => py_int_of_float (snd coord)) box.

(** Concrete configurations and datasets for the examples. *)
Definition example_cfg (sep : string) (jitter : list Z)
    (train_crop test_crop crops classes : Z) : CfgNode :=
  {| DATA := {| PATH_TO_DATA_DIR := "data"; PATH_PREFIX := "videos";
                PATH_LABEL_SEPARATOR := sep; SKIP_ROWS := 0;
                LOADER_CHUNK_SIZE := 0; TIME_DIFF_PROB := 0%Q;
                TRAIN_JITTER_SCALES := jitter;
                TRAIN_CROP_SIZE := train_crop;
                TEST_CROP_SIZE := test_crop |};
     TEST := {| NUM_SPATIAL_CROPS := crops; NUM_ENSEMBLE_VIEWS := 1 |};
     MODEL := {| NUM_CLASSES := classes |} |}.

Definition example_dataset (m : string) (c : CfgNode) (num_retries : Z)
    (paths : list string) (labels stidx : list Z) : Kinetics :=
  {| mode := m; cfg := c;
     _video_meta := list_to_map (map (fun i => (Z.of_nat i, ∅)) (seq 0 (length paths)));
     _num_retries := num_retries; _num_epoch := 0%Q; _num_yielded := 0;
     skip_rows := 0; p_convert_dt := 0%Q; use_chunk_loading := false;
     _path_to_videos := paths; _labels := labels;
     _spatial_temporal_idx := stidx;
     cur_iter := 0; chunk_epoch := 0; epoch := 0%Q; kpts := ∅ |}.

(** A training dataset whose configuration asks for 224-pixel crops. *)
Definition train_224 : Kinetics :=
  example_dataset "train" (example_cfg "," [224; 224] 224 224 3 2) 100
    ["videos/a.mp4"] [1] [0].

(** A test dataset with three spatial crops and stored index 5. *)
Definition test_3crops : Kinetics :=
  example_dataset "test" (example_cfg "," [256; 320] 224 256 3 2) 100
    ["videos/a.mp4"] [1] [5].

(** The appends of a list of parsed entries, as [load_rows] makes them. *)
Fixpoint append_entries (self : Kinetics) (clip_idx : Z)
    (es : list (string * Z)) : Kinetics :=
  match es with
  | [] => self
  | e :: es' =>
      append_entries (append_entry self clip_idx (fst e) (snd e))
        (clip_idx + 1) es'
  end.


(** A manifest with the single line of the example. *)
Definition one_line_world : world unit :=
  {| manifest := fun path =>
       if String.eqb path "data/val.csv" then Some ["a.mp4,3"] else None;
     read_csv := fun _ _ _ => CsvRaises;
     recursion_limit := 1000;
     get_video_container := fun _ _ => ContainerNone;
     decode := fun _ _ => DecodeRaises;
     random_draw := fun _ => 0;
     pickle_file := fun _ => None |}.

(** The three parallel lists have the same length. *)
Definition lengths_agree (self : Kinetics) : Prop :=
  length (_path_to_videos self) = length (_labels self)
  /\ length (_labels self) = length (_spatial_temporal_idx self).

(** The operations on a constructed dataset. *)
Section Operations.
Context {tensor packed : Type}.
Variable to_float_cthw : tensor -> tensor.
Variable spatial_sampling : CfgNode -> bool -> sampling -> tensor -> tensor.
Variable pack_pathway_output : CfgNode -> tensor -> packed.

Inductive operation : Type :=
| OpGetItem (w : world tensor) (index : Z)
| OpSetEpochNum (e : Q)
| OpNumVideos
| OpLen.

(** The object after an operation. *)
Definition run_op (self : Kinetics) (op : operation) : Kinetics :=
  match op with
  | OpGetItem w index =>
      self_after
        (__getitem__ w to_float_cthw spatial_sampling pack_pathway_output
           self index)
  | OpSetEpochNum e => _set_epoch_num self e
  | OpNumVideos => self
  | OpLen => self
  end.

Definition run_ops (self : Kinetics) (ops : list operation) : Kinetics :=
  fold_left run_op ops self.

End Operations.

(** The dataset built from the one-line manifest in val mode. *)
Definition one_line_cfg : CfgNode := example_cfg "," [256; 256] 224 256 3 2.

Definition one_line_dataset : Kinetics :=
  with_kpts
    (append_entries (reset_loader (blank one_line_cfg "val" 100)) 0
       [("videos/a.mp4", 3)]) ∅.

(** The [skiprows] argument of the [j]-th read of a chunk load that
    starts with offset [skip]. *)
Definition skip_at (skip : Z) (j : nat) : Z :=
  match j with O => skip | S _ => 0 end.

(** A reader that rejects every read. *)
Definition rejecting_world : world unit :=
  {| manifest := fun _ => Some [];
     read_csv := fun _ _ _ => CsvRaises;
     recursion_limit := 1000;
     get_video_container := fun _ _ => ContainerNone;
     decode := fun _ _ => DecodeRaises;
     random_draw := fun _ => 0;
     pickle_file := fun _ => None |}.

(** A reader that rejects every offset but zero. *)
Definition offset_world : world unit :=
  {| manifest := fun _ => Some [];
     read_csv := fun _ _ skip =>
       if skip =? 0 then CsvChunk ["a.mp4,3"; "b.mp4,0"] else CsvRaises;
     recursion_limit := 1000;
     get_video_container := fun _ _ => ContainerNone;
     decode := fun _ _ => DecodeRaises;
     random_draw := fun _ => 0;
     pickle_file := fun _ => None |}.

(** The index that [random.randint(0, len(self._path_to_videos) - 1)]
    returns at attempt [i_try]. *)
Definition drawn_index {tensor} (w : world tensor) (self : Kinetics)
    (i_try : Z) : Z :=
  random_draw w i_try mod num_videos self.

(** The pass [i_try] on the video [index] at [path] fails: the container
    is not acquired, or it is and the decoder returns frames that fail
    the validation, with the side file of the video at hand and a
    retry budget that the replacement test can divide by. *)
Definition pass_fails {tensor} (w : world tensor) (self : Kinetics)
    (i_try index : Z) (path : string) : Prop :=
  get_video_container w i_try path <> ContainerOk
  \/ (get_video_container w i_try path = ContainerOk
      /\ (exists meta, video_meta_arg self index = inr meta)
      /\ (exists frames time_idx tdiff bbox_index,
            decode w i_try index = Decoded frames time_idx tdiff bbox_index
            /\ decode_failed frames = true)
      /\ (kpts self !! index <> None \/ pickle_file w (kpts_path path) <> None)
      /\ (mode self = "test" \/ _num_retries self / 8 <> 0)).

(** The template of the exhaustion error. *)
Definition fetch_failed : string :=
  "Failed to fetch video idx {} from {}; after {} trials".

(** The transforms on a tensor without content. *)
Definition unit_float (t : unit) : unit := t.
Definition unit_sampling (c : CfgNode) (motion_shift : bool) (p : sampling)
    (t : unit) : unit := t.
Definition unit_pack (c : CfgNode) (t : unit) : unit := t.

(** No container can be acquired; every draw is 1. *)
Definition no_container_world : world unit :=
  {| manifest := fun _ => None;
     read_csv := fun _ _ _ => CsvRaises;
     recursion_limit := 1000;
     get_video_container := fun _ _ => ContainerNone;
     decode := fun _ _ => DecodeRaises;
     random_draw := fun _ => 1;
     pickle_file := fun _ => None |}.

(** Containers open, the decoder returns no frames, side files are
    empty stores; every draw is 1. *)
Definition no_frames_world : world unit :=
  {| manifest := fun _ => None;
     read_csv := fun _ _ _ => CsvRaises;
     recursion_limit := 1000;
     get_video_container := fun _ _ => ContainerOk;
     decode := fun _ _ => Decoded None [] false [];
     random_draw := fun _ => 1;
     pickle_file := fun _ => Some ∅ |}.


(** Two videos, in the given mode and with the given retry budget. *)
Definition two_videos (m : string) (num_retries : Z) : Kinetics :=
  example_dataset m (example_cfg "," [256; 256] 224 256 3 2) num_retries
    ["videos/a.mp4"; "videos/b.mp4"] [1; 0] [0; 0].

Definition fixed_256 : sampling :=
  {| temporal_sample_index := -1; spatial_sample_index := -1;
     min_scale := 256; max_scale := 256; crop_size := 256 |}.

(** [self'] is [self0] with a side-file cache that has lost nothing. *)
Definition cache_grown (self0 self' : Kinetics) : Prop :=
  self' = with_kpts self0 (kpts self')
  /\ forall j, kpts self0 !! j <> None -> kpts self' !! j <> None.

(** One video with a side file that holds one triangle for frame 4;
    the decoder returns one frame, with frame number 4. *)
Definition triangle_store : gmap string (gmap string (list polygon)) :=
  {[ "video93_20f.mp4" :=
       {[ "frame4" := [[(2#1, 7#1); (8#1, 3#1); (5#1, 10#1)]%Q] ]} ]}.

Definition triangle_world (frame_num : Z) : world unit :=
  {| manifest := fun _ => None;
     read_csv := fun _ _ _ => CsvRaises;
     recursion_limit := 1000;
     get_video_container := fun _ _ => ContainerOk;
     decode := fun _ _ => Decoded (Some [Some tt]) [[0; 8]] false [[frame_num]];
     random_draw := fun _ => 0;
     pickle_file := fun path =>
       if String.eqb path "./data/video_kpts" then Some triangle_store
       else None |}.

Definition one_video (m : string) (num_retries : Z) : Kinetics :=
  example_dataset m (example_cfg "," [256; 256] 224 256 3 2) num_retries
    ["videos/video93_20fps_256.mp4"] [3] [0].

(** An outcome of a failed pass leaves the index alone, or, outside
    test mode, continues on an index of the dataset, or raises. *)
Definition keeps_or_draws {A} (self : Kinetics) (index : Z) (o : outcome A)
  : Prop :=
  match o with
  | Continue j =>
      j = index \/ (mode self <> "test" /\ 0 <= j < num_videos self)
  | Return _ => False
  | Raise _ => True
  end.

(** [index] is an index of the dataset counted from the front. *)
Definition in_dataset (self : Kinetics) (index : Z) : Prop :=
  0 <= index < num_videos self.

(** The label a fetch hands out for the stored label [l]. *)
Definition handed_label (self : Kinetics) (l : Z) : Z :=
  if (NUM_CLASSES (MODEL (cfg self)) =? 2) && (0 <? l) then 1 else l.

(** Four corners of two coordinates each. *)
Definition four_by_two (r : rectangle) : Prop :=
  length r = 4%nat /\ Forall (fun corner => length corner = 2%nat) r.

(** The item of the fetch of the video with the triangle. *)
Definition triangle_item : item unit :=
  {| frames_out := tt; label_out := 1; index_out := 0;
     time_idx_out := [[0; 8]]; aux_out := ∅;
     bboxes_out := [[[[2; 3]; [8; 3]; [8; 10]; [2; 10]]]] |}.

(** A dataset that has the side file of index 0 in its cache. *)
Definition cached_video : Kinetics :=
  with_kpts (one_video "train" 100) {[ 0 := triangle_store ]}.

(** The first read of the chunk yields no chunk. *)
Definition header_only_world : world unit :=
  {| manifest := fun _ => Some ["a.mp4,3"];
     read_csv := fun _ _ _ => CsvNoChunk;
     recursion_limit := 1000;
     get_video_container := fun _ _ => ContainerNone;
     decode := fun _ _ => DecodeRaises;
     random_draw := fun _ => 0;
     pickle_file := fun _ => None |}.

(** A configuration that asks for chunks of 64 rows. *)
Definition chunk_cfg : CfgNode :=
  {| DATA := {| PATH_TO_DATA_DIR := "data"; PATH_PREFIX := "videos";
                PATH_LABEL_SEPARATOR := ","; SKIP_ROWS := 7;
                LOADER_CHUNK_SIZE := 64; TIME_DIFF_PROB := 0%Q;
                TRAIN_JITTER_SCALES := [256; 256];
                TRAIN_CROP_SIZE := 224;
                TEST_CROP_SIZE := 256 |};
     TEST := {| NUM_SPATIAL_CROPS := 3; NUM_ENSEMBLE_VIEWS := 1 |};
     MODEL := {| NUM_CLASSES := 2 |} |}.

(** Two worlds answer the chunk reads on [path] alike. *)
Definition same_reader {tensor} (w1 w2 : world tensor) (path : string) : Prop :=
  recursion_limit w1 = recursion_limit w2
  /\ forall reads skip, read_csv w1 path reads skip = read_csv w2 path reads skip.

(** Comparisons of integers, from booleans to propositions. *)
Ltac bools :=
  repeat match goal with
  | H : (_ && _) = true |- _ => apply andb_true_iff in H; destruct H
  | H : (_ && _) = false |- _ => apply andb_false_iff in H; destruct H
  | H : (_ <=? _) = true |- _ => apply Z.leb_le in H
  | H : (_ <=? _) = false |- _ => apply Z.leb_gt in H
  | H : (_ <? _) = true |- _ => apply Z.ltb_lt in H
  | H : (_ <? _) = false |- _ => apply Z.ltb_ge in H
  end.

(** The exceptions the selection of the sampling parameters raises in a
    supported mode. *)
Definition selection_error (e : exn) : Prop :=
  e = IndexError \/ e = ZeroDivisionError
  \/ exists template args, e = AssertionError template args.

(** The manifest of [one_line_world] with other collaborators. *)
Definition other_one_line_world : world unit :=
  {| manifest := manifest one_line_world;
     read_csv := fun _ _ _ => CsvChunk ["b.mp4,7"];
     recursion_limit := 5;
     get_video_container := fun _ _ => ContainerOk;
     decode := fun _ _ => DecodeRaises;
     random_draw := fun _ => 3;
     pickle_file := fun _ => None |}.

(** The parameters selected for [test_3crops]. *)
Definition params_3crops : sampling :=
  {| temporal_sample_index := 1; spatial_sample_index := 2;
     min_scale := 256; max_scale := 256; crop_size := 256 |}.

(** [t] is [q] with its fractional part dropped: the integer next to
    [q] on the side of zero. *)
Definition truncates (q : Q) (t : Z) : Prop :=
  ((0 <= q)%Q -> (inject_Z t <= q)%Q /\ (q < inject_Z (t + 1))%Q)
  /\ ((q <= 0)%Q -> (inject_Z (t - 1) < q)%Q /\ (q <= inject_Z t)%Q).

(** A polygon with coordinates that are not integers. *)
Definition fractional_polygon : polygon :=
  [(27#10, 7#1); (8#1, (-31)#10); (5#1, 10#1)]%Q.

(** The first decode of a fetch fails the validation and names frames
    1, 2, 3; the second returns one frame and names frames 7, 8, 9, for
    which the side file holds no box. *)
Definition second_pass_store : gmap string (gmap string (list polygon)) :=
  {[ "video93_20f.mp4" :=
       {[ "frame7" := []; "frame8" := []; "frame9" := [] ]} ]}.

Definition second_pass_world : world unit :=
  {| manifest := fun _ => None;
     read_csv := fun _ _ _ => CsvRaises;
     recursion_limit := 1000;
     get_video_container := fun _ _ => ContainerOk;
     decode := fun i_try _ =>
       if i_try =? 0 then Decoded None [] false [[1; 2; 3]]
       else Decoded (Some [Some tt]) [[0; 8]] false [[7; 8; 9]];
     random_draw := fun _ => 0;
     pickle_file := fun _ => Some second_pass_store |}.

(** The path of the video at [index], empty when there is none. *)
Definition path_at (self : Kinetics) (index : Z) : string :=
  match py_getitem (_path_to_videos self) index with
  | inr path => path
  | inl _ => ""
  end.

(** The index held after a failed pass [i_try] on [index]: the one the
    two replacement tests of the loop leave. *)
Definition next_index {tensor} (w : world tensor) (self : Kinetics)
    (i_try index : Z) : Z :=
  if String.eqb (mode self) "test" then index
  else
    match get_video_container w i_try (path_at self index) with
    | ContainerOk =>
        if i_try mod (_num_retries self / 8) =? 0
        then drawn_index w self i_try else index
    | _ =>
        if _num_retries self / 8 <? i_try
        then drawn_index w self i_try else index
    end.

(** The index held after [k] failed passes of a fetch called with
    [index]: pass [k] is made on it. *)
Fixpoint visited {tensor} (w : world tensor) (self : Kinetics) (index : Z)
    (k : nat) : Z :=
  match k with
  | O => index
  | S k' => next_index w self (Z.of_nat k') (visited w self index k')
  end.

(** Only the first video cannot be opened. *)
Definition first_unreadable_world : world unit :=
  {| manifest := fun _ => None;
     read_csv := fun _ _ _ => CsvRaises;
     recursion_limit := 1000;
     get_video_container := fun _ path =>
       if String.eqb path "videos/a.mp4" then ContainerNone else ContainerOk;
     decode := fun _ _ => Decoded (Some [Some tt]) [[0]] false [[4]];
     random_draw := fun _ => 1;
     pickle_file := fun _ => Some ∅ |}.

(** The parameters selected for [two_videos "test"]. *)
Definition params_two_videos_test : sampling :=
  {| temporal_sample_index := 0; spatial_sample_index := 0;
     min_scale := 256; max_scale := 256; crop_size := 256 |}.

(* ===================================================================== *)
(** ** Basic facts about the Python primitives *)
(* ===================================================================== *)

Example py_split_ab : py_split "a.mp4,3" "," = ret ["a.mp4"; "3"].
Proof. reflexivity. Qed.

Example py_split_multi : py_split "a--b----c-" "--" = ret ["a"; "b"; ""; "c-"].
Proof. reflexivity. Qed.

Example py_slice_id :
  py_slice "/home/psriram2/SlowFast/data/videos_256/93_20fps_256.mp4" 40 (-10)
  = "93_20f".
Proof. reflexivity. Qed.

Example py_int_examples :
  py_int_of_str " -1_2 " = ret (-12) /\ py_int_of_str "1__2" = raise ValueError
  /\ py_int_of_str "" = raise ValueError /\ py_int_of_str "007" = ret 7.
Proof. repeat split; reflexivity. Qed.

Lemma py_getitem_nth {A} (l : list A) (i : Z) (a : A) :
  0 <= i -> nth_error l (Z.to_nat i) = Some a -> py_getitem l i = inr a.
Proof.
  intros Hi Hn. unfold py_getitem.
  assert (Hlt : (Z.to_nat i < length l)%nat).
  { apply nth_error_Some. rewrite Hn. discriminate. }
  destruct (i <? 0) eqn:E; [lia|].
  destruct (i <? 0) eqn:E1; [lia|].
  destruct (Z.of_nat (length l) <=? i) eqn:E2; [lia|].
  simpl. rewrite Hn. reflexivity.
Qed.

Lemma py_getitem_inv {A} (l : list A) (i : Z) (a : A) :
  py_getitem l i = inr a ->
  - Z.of_nat (length l) <= i < Z.of_nat (length l) /\ In a l.
Proof.
  unfold py_getitem. intros H.
  destruct (i <? 0) eqn:E.
  - destruct ((i + Z.of_nat (length l) <? 0) || (Z.of_nat (length l) <=? i + Z.of_nat (length l))) eqn:E1;
      [discriminate|].
    apply orb_false_iff in E1 as [E1 E2].
    destruct (nth_error l (Z.to_nat (i + Z.of_nat (length l)))) eqn:En; [|discriminate].
    injection H as <-. split; [lia|]. eapply nth_error_In; eauto.
  - destruct ((i <? 0) || (Z.of_nat (length l) <=? i)) eqn:E1; [discriminate|].
    apply orb_false_iff in E1 as [E1 E2].
    destruct (nth_error l (Z.to_nat i)) eqn:En; [|discriminate].
    injection H as <-. split; [lia|]. eapply nth_error_In; eauto.
Qed.

Lemma py_getitem_total {A} (l : list A) (i : Z) :
  0 <= i < Z.of_nat (length l) -> exists a, py_getitem l i = inr a.
Proof.
  intros Hi.
  destruct (nth_error l (Z.to_nat i)) eqn:En.
  - exists a. apply py_getitem_nth; [lia | exact En].
  - apply nth_error_None in En. lia.
Qed.

Lemma fold_min_spec (l : list Z) (x : Z) :
  In (fold_left Z.min l x) (x :: l) /\
  forall y, In y (x :: l) -> fold_left Z.min l x <= y.
Proof.
  revert x. induction l as [|a l IH]; intros x; simpl.
  - split; [now left | intros y [<- | []]; lia].
  - destruct (IH (Z.min x a)) as [Hin Hle]. split.
    + destruct Hin as [Hm | Hm].
      * rewrite <- Hm. destruct (Z.min_spec x a) as [[_ ->] | [_ ->]]; auto.
      * right. now right.
    + intros y [<- | [<- | Hy]].
      * specialize (Hle (Z.min x a) (or_introl eq_refl)). lia.
      * specialize (Hle (Z.min x a) (or_introl eq_refl)). lia.
      * apply Hle. now right.
Qed.

Lemma fold_max_spec (l : list Z) (x : Z) :
  In (fold_left Z.max l x) (x :: l) /\
  forall y, In y (x :: l) -> y <= fold_left Z.max l x.
Proof.
  revert x. induction l as [|a l IH]; intros x; simpl.
  - split; [now left | intros y [<- | []]; lia].
  - destruct (IH (Z.max x a)) as [Hin Hle]. split.
    + destruct Hin as [Hm | Hm].
      * rewrite <- Hm. destruct (Z.max_spec x a) as [[_ ->] | [_ ->]]; auto.
      * right. now right.
    + intros y [<- | [<- | Hy]].
      * specialize (Hle (Z.max x a) (or_introl eq_refl)). lia.
      * specialize (Hle (Z.max x a) (or_introl eq_refl)). lia.
      * apply Hle. now right.
Qed.

Lemma py_min_spec (l : list Z) :
  l <> [] -> exists y, py_min l = inr y /\ is_min y l.
Proof.
  destruct l as [|x l]; [congruence|]. intros _.
  exists (fold_left Z.min l x). split; [reflexivity | apply fold_min_spec].
Qed.

Lemma py_max_spec (l : list Z) :
  l <> [] -> exists y, py_max l = inr y /\ is_max y l.
Proof.
  destruct l as [|x l]; [congruence|]. intros _.
  exists (fold_left Z.max l x). split; [reflexivity | apply fold_max_spec].
Qed.

(* ===================================================================== *)
(** ** Bounding-box alignment: the rectangle of a polygon *)
(* ===================================================================== *)

Lemma py_int_of_float_truncates (q : Q) : truncates q (py_int_of_float q).
Proof.
  destruct q as [a b]. unfold truncates, py_int_of_float, Qle, Qlt. simpl.
  pose proof (Z.quot_rem' a (Z.pos b)) as Hqr.
  split; intros Ha.
  - pose proof (Z.rem_bound_pos_pos a (Z.pos b) ltac:(lia) ltac:(lia)) as Hr.
    split; nia.
  - pose proof (Z.rem_bound_pos_neg a (Z.pos b) ltac:(lia) ltac:(lia)) as Hr.
    split; nia.
Qed.

Lemma truncates_unique (q : Q) (t t' : Z) :
  truncates q t -> truncates q t' -> t = t'.
Proof.
  destruct q as [a b]. unfold truncates, Qle, Qlt. simpl.
  intros [Hp Hn] [Hp' Hn'].
  destruct (Z_le_gt_dec 0 a) as [Ha | Ha].
  - destruct (Hp ltac:(lia)), (Hp' ltac:(lia)). nia.
  - destruct (Hn ltac:(lia)), (Hn' ltac:(lia)). nia.
Qed.

Lemma xs_of_truncated (box : polygon) :
  Forall2 (fun pt x => truncates (fst pt) x) box (xs_of box).
Proof.
  induction box as [|pt box IH]; simpl; constructor;
    [apply py_int_of_float_truncates | exact IH].
Qed.

Lemma ys_of_truncated (box : polygon) :
  Forall2 (fun pt y => truncates (snd pt) y) box (ys_of box).
Proof.
  induction box as [|pt box IH]; simpl; constructor;
    [apply py_int_of_float_truncates | exact IH].
Qed.

(** C7: a non-empty polygon is reduced to the four corners
    (x_min, y_min), (x_max, y_min), (x_max, y_max), (x_min, y_max), in
    this order, where the bounds are the least and greatest of the x and
    of the y coordinates after each has been truncated towards zero;
    the points (2,7), (8,3), (5,10) give (2,3), (8,3), (8,10), (2,10),
    and (2.7,7), (8,-3.1), (5,10) give (2,-3), (8,-3), (8,10), (2,10). *)
Theorem align_box_rectangle :
  (forall box : polygon, box <> [] ->
     exists (xs ys : list Z) (x_min x_max y_min y_max : Z),
       Forall2 (fun pt x => truncates (fst pt) x) box xs
       /\ Forall2 (fun pt y => truncates (snd pt) y) box ys
       /\ align_box box =
         ret [[x_min; y_min]; [x_max; y_min]; [x_max; y_max]; [x_min; y_max]]
       /\ is_min x_min xs /\ is_max x_max xs
       /\ is_min y_min ys /\ is_max y_max ys)
  /\ align_box [(2#1, 7#1); (8#1, 3#1); (5#1, 10#1)]%Q
     = ret [[2; 3]; [8; 3]; [8; 10]; [2; 10]]
  /\ align_box fractional_polygon
     = ret [[2; -3]; [8; -3]; [8; 10]; [2; 10]].
Proof.
  split; [|split; reflexivity].
  intros box Hne.
  assert (Hx : xs_of box <> []) by (destruct box; [congruence | discriminate]).
  assert (Hy : ys_of box <> []) by (destruct box; [congruence | discriminate]).
  destruct (py_min_spec _ Hx) as (x_min & Ex1 & Hx1).
  destruct (py_max_spec _ Hx) as (x_max & Ex2 & Hx2).
  destruct (py_min_spec _ Hy) as (y_min & Ey1 & Hy1).
  destruct (py_max_spec _ Hy) as (y_max & Ey2 & Hy2).
  exists (xs_of box), (ys_of box), x_min, x_max, y_min, y_max.
  split; [apply xs_of_truncated|]. split; [apply ys_of_truncated|].
  unfold align_box. fold (xs_of box) (ys_of box).
  rewrite Ex1, Ex2, Ey1, Ey2. simpl. auto.
Qed.

Lemma align_box_rectangle_witness :
  fractional_polygon <> []
  /\ exists (xs ys : list Z) (x_min x_max y_min y_max : Z),
       xs = [2; 8; 5] /\ ys = [7; -3; 10]
       /\ x_min = 2 /\ x_max = 8 /\ y_min = -3 /\ y_max = 10
       /\ align_box fractional_polygon =
          ret [[x_min; y_min]; [x_max; y_min]; [x_max; y_max]; [x_min; y_max]].
Proof.
  split; [discriminate|].
  destruct (proj1 align_box_rectangle fractional_polygon ltac:(discriminate))
    as (xs & ys & x_min & x_max & y_min & y_max
        & Hxs & Hys & Heq & Hx1 & Hx2 & Hy1 & Hy2).
  exists xs, ys, x_min, x_max, y_min, y_max.
  assert (Exs : xs = [2; 8; 5]).
  { unfold fractional_polygon in Hxs.
    inversion Hxs as [|p1 x1 l1 r1 T1 Hxs1]; subst.
    inversion Hxs1 as [|p2 x2 l2 r2 T2 Hxs2]; subst.
    inversion Hxs2 as [|p3 x3 l3 r3 T3 Hxs3]; subst.
    inversion Hxs3; subst.
    rewrite (truncates_unique _ _ 2 T1 (py_int_of_float_truncates (27#10))).
    rewrite (truncates_unique _ _ 8 T2 (py_int_of_float_truncates (8#1))).
    rewrite (truncates_unique _ _ 5 T3 (py_int_of_float_truncates (5#1))).
    reflexivity. }
  assert (Eys : ys = [7; -3; 10]).
  { unfold fractional_polygon in Hys.
    inversion Hys as [|p1 x1 l1 r1 T1 Hys1]; subst.
    inversion Hys1 as [|p2 x2 l2 r2 T2 Hys2]; subst.
    inversion Hys2 as [|p3 x3 l3 r3 T3 Hys3]; subst.
    inversion Hys3; subst.
    rewrite (truncates_unique _ _ 7 T1 (py_int_of_float_truncates (7#1))).
    rewrite (truncates_unique _ _ (-3) T2 (py_int_of_float_truncates ((-31)#10))).
    rewrite (truncates_unique _ _ 10 T3 (py_int_of_float_truncates (10#1))).
    reflexivity. }
  subst xs ys.
  assert (x_min = 2).
  { destruct Hx1 as [Hin Hle]. pose proof (Hle 2 ltac:(simpl; auto)).
    simpl in Hin. lia. }
  assert (x_max = 8).
  { destruct Hx2 as [Hin Hle]. pose proof (Hle 8 ltac:(simpl; auto)).
    simpl in Hin. lia. }
  assert (y_min = -3).
  { destruct Hy1 as [Hin Hle]. pose proof (Hle (-3) ltac:(simpl; auto)).
    simpl in Hin. lia. }
  assert (y_max = 10).
  { destruct Hy2 as [Hin Hle]. pose proof (Hle 10 ltac:(simpl; auto)).
    simpl in Hin. lia. }
  repeat split; auto.
Defined.

Example align_box_truncates :
  align_box [(27#10, 7#1); (8#1, (-31)#10); (5#1, 10#1)]%Q
  = ret [[2; -3]; [8; -3]; [8; 10]; [2; 10]].
Proof. reflexivity. Qed.

Example align_box_empty : align_box [] = raise ValueError.
Proof. reflexivity. Qed.

(* ===================================================================== *)
(** ** Sampling-parameter selection *)
(* ===================================================================== *)

Lemma str_in_test_not_train :
  str_in "test" ["train"; "val"] = false /\ str_in "test" ["test"] = true.
Proof. split; reflexivity. Qed.

(** C3: in test mode the temporal index is the stored index floor-divided
    by NUM_SPATIAL_CROPS; the spatial index is the stored index modulo
    NUM_SPATIAL_CROPS when there are several crops and 1 when there is
    one; stored index 5 with 3 crops gives temporal 1 and spatial 2. *)
Theorem test_mode_sample_indices (self : Kinetics) (index st : Z) :
  mode self = "test" ->
  py_getitem (_spatial_temporal_idx self) index = inr st ->
  1 <= NUM_SPATIAL_CROPS (TEST (cfg self)) ->
  (NUM_SPATIAL_CROPS (TEST (cfg self)) = 1 ->
   TRAIN_JITTER_SCALES (DATA (cfg self)) <> []) ->
  exists p, sampling_params self index = inr p
    /\ temporal_sample_index p = st / NUM_SPATIAL_CROPS (TEST (cfg self))
    /\ (1 < NUM_SPATIAL_CROPS (TEST (cfg self)) ->
        spatial_sample_index p = st mod NUM_SPATIAL_CROPS (TEST (cfg self)))
    /\ (NUM_SPATIAL_CROPS (TEST (cfg self)) = 1 -> spatial_sample_index p = 1)
    /\ (st = 5 -> NUM_SPATIAL_CROPS (TEST (cfg self)) = 3 ->
        temporal_sample_index p = 1 /\ spatial_sample_index p = 2).
Proof.
  intros Hm Hst Hc Hj.
  unfold sampling_params. rewrite Hm.
  destruct str_in_test_not_train as [-> ->].
  rewrite Hst. simpl bind.
  unfold py_floordiv, py_mod.
  destruct (NUM_SPATIAL_CROPS (TEST (cfg self)) =? 0) eqn:E0; [lia|].
  simpl bind.
  destruct (1 <? NUM_SPATIAL_CROPS (TEST (cfg self))) eqn:E1.
  - simpl. rewrite Z.eqb_refl. simpl.
    eexists. split; [reflexivity|]. simpl.
    repeat split; try lia.
    + subst st. rewrite H0. reflexivity.
    + subst st. rewrite H0. reflexivity.
  - assert (Hone : NUM_SPATIAL_CROPS (TEST (cfg self)) = 1) by lia.
    specialize (Hj Hone).
    destruct (TRAIN_JITTER_SCALES (DATA (cfg self))) as [|j js] eqn:Ej;
      [congruence|].
    assert (Hg : py_getitem (j :: js) 0 = inr j).
    { apply py_getitem_nth; [lia | reflexivity]. }
    rewrite Hg. simpl. rewrite Z.eqb_refl. simpl.
    eexists. split; [reflexivity|]. simpl.
    repeat split; try lia.
Qed.

Lemma test_mode_sample_indices_witness :
  exists p, sampling_params test_3crops 0 = inr p
    /\ temporal_sample_index p = 5 / NUM_SPATIAL_CROPS (TEST (cfg test_3crops))
    /\ (1 < NUM_SPATIAL_CROPS (TEST (cfg test_3crops)) ->
        spatial_sample_index p = 5 mod NUM_SPATIAL_CROPS (TEST (cfg test_3crops)))
    /\ (NUM_SPATIAL_CROPS (TEST (cfg test_3crops)) = 1 -> spatial_sample_index p = 1)
    /\ (5 = 5 -> NUM_SPATIAL_CROPS (TEST (cfg test_3crops)) = 3 ->
        temporal_sample_index p = 1 /\ spatial_sample_index p = 2).
Proof.
  apply (test_mode_sample_indices test_3crops 0 5).
  - reflexivity.
  - reflexivity.
  - simpl. lia.
  - simpl. discriminate.
Defined.

Example test_3crops_params :
  sampling_params test_3crops 0 =
  ret {| temporal_sample_index := 1; spatial_sample_index := 2;
         min_scale := 256; max_scale := 256; crop_size := 256 |}.
Proof. reflexivity. Qed.

(** C4, as the code has it: in train and val modes both sample indices
    are -1, the scale bounds are the two configured training jitter
    scales, the crop size is the constant 256 whatever the configured
    training crop size, and an assertion fails unless
    min_scale == max_scale == 256. *)
Theorem train_val_sampling_params (self : Kinetics) (index a b : Z)
    (rest : list Z) :
  mode self = "train" \/ mode self = "val" ->
  TRAIN_JITTER_SCALES (DATA (cfg self)) = a :: b :: rest ->
  sampling_params self index =
    if (a =? b) && (b =? 256)
    then ret {| temporal_sample_index := -1; spatial_sample_index := -1;
                min_scale := a; max_scale := b; crop_size := 256 |}
    else raise (AssertionError "" []).
Proof.
  intros Hm Hj. unfold sampling_params.
  assert (Hin : str_in (mode self) ["train"; "val"] = true)
    by (destruct Hm as [-> | ->]; reflexivity).
  rewrite Hin, Hj.
  assert (Ha : py_getitem (a :: b :: rest) 0 = inr a)
    by (apply py_getitem_nth; [lia | reflexivity]).
  assert (Hb : py_getitem (a :: b :: rest) 1 = inr b)
    by (apply py_getitem_nth; [lia | reflexivity]).
  rewrite Ha, Hb. simpl bind.
  destruct (a =? b); simpl; [|reflexivity].
  destruct (b =? 256); reflexivity.
Qed.

Lemma train_val_sampling_params_witness :
  sampling_params
    (example_dataset "val" (example_cfg "," [256; 256] 224 256 3 2) 100
       ["videos/a.mp4"] [1] [0]) 7 =
  ret {| temporal_sample_index := -1; spatial_sample_index := -1;
         min_scale := 256; max_scale := 256; crop_size := 256 |}.
Proof.
  apply (train_val_sampling_params
           (example_dataset "val" (example_cfg "," [256; 256] 224 256 3 2) 100
              ["videos/a.mp4"] [1] [0]) 7 256 256 []).
  - right. reflexivity.
  - reflexivity.
Defined.

(** C4 as stated fails: with the training crop size and both jitter
    scales configured as 224, min_scale == max_scale == configured crop
    size holds, and the selection still fails its assertion. *)
Lemma train_crop_size_not_from_cfg :
  TRAIN_JITTER_SCALES (DATA (cfg train_224)) = [224; 224]
  /\ TRAIN_CROP_SIZE (DATA (cfg train_224)) = 224
  /\ sampling_params train_224 0 = raise (AssertionError "" []).
Proof. repeat split; reflexivity. Qed.

(* ===================================================================== *)
(** ** Manifest loader *)
(* ===================================================================== *)


Lemma map_result_length {A B} (f : A -> result B) (l : list A) (bs : list B) :
  map_result f l = inr bs -> length bs = length l.
Proof.
  revert bs. induction l as [|a l IH]; simpl; intros bs H.
  - injection H as <-. reflexivity.
  - destruct (f a); simpl in H; [discriminate|].
    destruct (map_result f l); simpl in H; [discriminate|].
    injection H as <-. simpl. f_equal. apply IH. reflexivity.
Qed.

Lemma append_entries_fields (es : list (string * Z)) (self : Kinetics)
    (k : Z) :
  _path_to_videos (append_entries self k es)
  = (_path_to_videos self ++ map fst es)%list
  /\ _labels (append_entries self k es) = (_labels self ++ map snd es)%list
  /\ _spatial_temporal_idx (append_entries self k es)
     = (_spatial_temporal_idx self ++ map (fun _ => 0) es)%list
  /\ cfg (append_entries self k es) = cfg self
  /\ mode (append_entries self k es) = mode self
  /\ _num_retries (append_entries self k es) = _num_retries self.
Proof.
  revert self k. induction es as [|e es IH]; intros self k; simpl.
  - rewrite !app_nil_r. repeat split.
  - destruct (IH (append_entry self k (fst e) (snd e)) (k + 1))
      as (-> & -> & -> & -> & -> & ->).
    simpl. rewrite <- !app_assoc. repeat split.
Qed.

Lemma load_rows_spec (path_to_file : string) (rows : list string) (k : Z)
    (self : Kinetics) :
  load_rows path_to_file rows k self =
  do es <- map_result (parse_row (cfg self) path_to_file) rows;
  ret (append_entries self k es).
Proof.
  revert k self. induction rows as [|r rows IH]; intros k self; simpl.
  - reflexivity.
  - destruct (parse_row (cfg self) path_to_file r) as [e | e]; simpl;
      [reflexivity|].
    rewrite IH. simpl.
    destruct (map_result (parse_row (cfg self) path_to_file) rows); reflexivity.
Qed.








Lemma construct_returns {tensor} (w : world tensor) (self self1 : Kinetics)
    (lines rows : list string) (es : list (string * Z)) :
  manifest w (manifest_path self) = Some lines ->
  read_rows w (reset_loader self) lines = inr (self1, rows) ->
  map_result (parse_row (cfg self1) (manifest_path self)) rows = inr es ->
  _construct_loader w self =
    if 0 <? Z.of_nat (length (_path_to_videos self1 ++ map fst es)%list)
    then ret (append_entries self1 0 es)
    else raise (AttributeError "_split_idx").
Proof.
  intros Hm Hr Hes. unfold _construct_loader.
  rewrite Hm, Hr. simpl bind. rewrite load_rows_spec.
  simpl fst. simpl snd. rewrite Hes. simpl bind.
  destruct (append_entries_fields es self1 0) as (-> & _). reflexivity.
Qed.

Lemma read_rows_lists {tensor} (w : world tensor) (self self1 : Kinetics)
    (lines rows : list string) :
  read_rows w self lines = inr (self1, rows) ->
  _path_to_videos self1 = _path_to_videos self
  /\ _labels self1 = _labels self
  /\ _spatial_temporal_idx self1 = _spatial_temporal_idx self
  /\ cfg self1 = cfg self /\ mode self1 = mode self
  /\ _num_retries self1 = _num_retries self.
Proof.
  unfold read_rows. destruct (use_chunk_loading self).
  - destruct (_get_chunk w (manifest_path self) (recursion_limit w) 0 (skip_rows self))
      as [[skip reads] [e | r]]; simpl; [discriminate|].
    intros H. injection H as <- <-. repeat split.
  - intros H. injection H as <- <-. repeat split.
Qed.



Example parse_row_examples :
  let c := example_cfg "," [256; 256] 224 256 3 2 in
  parse_row c "data/val.csv" "a.mp4,x,3" = ret ("videos/a.mp4", 3)
  /\ parse_row c "data/val.csv" "a.mp4" = ret ("videos/a.mp4", 0)
  /\ parse_row c "data/val.csv" "" = ret ("videos/", 0)
  /\ parse_row c "data/val.csv" "/abs/a.mp4,1" = ret ("/abs/a.mp4", 1)
  /\ parse_row c "data/val.csv" "a,b,c,4"
     = raise (RuntimeError "Failed to parse video fetch {} info {} retries."
                           [PStr "data/val.csv"; PList ["a"; "b"; "c"; "4"]])
  /\ parse_row c "data/val.csv" "a.mp4,three" = raise ValueError.
Proof. repeat split; reflexivity. Qed.

(* ===================================================================== *)
(** ** Chunk loading *)
(* ===================================================================== *)

Lemma get_chunk_after_rejections {tensor} (w : world tensor) (path : string)
    (k : nat) :
  forall (frames reads : nat) (skip : Z) (cells : list string),
    (k < frames)%nat ->
    (forall j, (j < k)%nat ->
       read_csv w path (reads + j) (skip_at skip j) = CsvRaises) ->
    read_csv w path (reads + k) (skip_at skip k) = CsvChunk cells ->
    _get_chunk w path frames reads skip
    = (skip_at skip k, (reads + k + 1)%nat, ret cells).
Proof.
  induction k as [|k IH]; intros frames reads skip cells Hlt Hrej Hok.
  - destruct frames as [|frames]; [lia|]. simpl.
    rewrite Nat.add_0_r in Hok. simpl in Hok. rewrite Hok.
    do 2 f_equal. lia.
  - destruct frames as [|frames]; [lia|]. simpl.
    pose proof (Hrej O ltac:(lia)) as H0.
    rewrite Nat.add_0_r in H0. simpl in H0. rewrite H0.
    rewrite (IH frames (S reads) 0 cells).
    + destruct k; simpl; do 2 f_equal; lia.
    + lia.
    + intros j Hj. specialize (Hrej (S j) ltac:(lia)).
      replace (S reads + j)%nat with (reads + S j)%nat by lia.
      destruct j; exact Hrej.
    + replace (S reads + k)%nat with (reads + S k)%nat by lia.
      destruct k; exact Hok.
Qed.

Lemma get_chunk_all_rejected {tensor} (w : world tensor) (path : string)
    (frames : nat) :
  forall (reads : nat) (skip : Z),
    (forall j, (j < frames)%nat ->
       read_csv w path (reads + j) (skip_at skip j) = CsvRaises) ->
    _get_chunk w path frames reads skip
    = (skip_at skip frames, (reads + frames)%nat, raise RecursionError).
Proof.
  induction frames as [|frames IH]; intros reads skip Hrej.
  - simpl. do 2 f_equal. lia.
  - simpl. pose proof (Hrej O ltac:(lia)) as H0.
    rewrite Nat.add_0_r in H0. simpl in H0. rewrite H0.
    rewrite (IH (S reads) 0).
    + destruct frames; simpl; do 2 f_equal; lia.
    + intros j Hj. specialize (Hrej (S j) ltac:(lia)).
      replace (S reads + j)%nat with (reads + S j)%nat by lia.
      destruct j; exact Hrej.
Qed.

(** C8, as the code has it: a rejected read sets the skip offset to zero
    and reads again, as often as reads are rejected.  When the read at
    offset zero is accepted the loader returns its chunk after exactly
    two reads, with the offset left at zero; after [k] rejected reads
    followed by an accepted one it returns after [k + 1] reads; when
    every read is rejected the calls nest until the interpreter stack is
    exhausted and the load raises. *)
Theorem get_chunk_retries {tensor} (w : world tensor) (path : string) :
  (forall (frames reads : nat) (skip : Z) (cells : list string),
     read_csv w path reads skip = CsvRaises ->
     read_csv w path (S reads) 0 = CsvChunk cells ->
     _get_chunk w path (S (S frames)) reads skip
     = (0, S (S reads), ret cells))
  /\ (forall (k frames reads : nat) (skip : Z) (cells : list string),
     (k < frames)%nat ->
     (forall j, (j < k)%nat ->
        read_csv w path (reads + j) (skip_at skip j) = CsvRaises) ->
     read_csv w path (reads + k) (skip_at skip k) = CsvChunk cells ->
     _get_chunk w path frames reads skip
     = (skip_at skip k, (reads + k + 1)%nat, ret cells))
  /\ (forall (frames reads : nat) (skip : Z),
     (forall j, (j < frames)%nat ->
        read_csv w path (reads + j) (skip_at skip j) = CsvRaises) ->
     _get_chunk w path frames reads skip
     = (skip_at skip frames, (reads + frames)%nat, raise RecursionError)).
Proof.
  split; [|split].
  - intros frames reads skip cells H0 H1.
    rewrite (get_chunk_after_rejections w path 1 (S (S frames)) reads skip cells).
    + simpl. do 2 f_equal. lia.
    + lia.
    + intros j Hj. assert (j = O) by lia. subst j.
      rewrite Nat.add_0_r. exact H0.
    + replace (reads + 1)%nat with (S reads) by lia. exact H1.
  - intros k. apply get_chunk_after_rejections.
  - intros frames. apply get_chunk_all_rejected.
Qed.

Lemma get_chunk_retries_witness :
  _get_chunk offset_world "data/train.csv" 1000 0 7
  = (0, 2%nat, ret ["a.mp4,3"; "b.mp4,0"]).
Proof.
  apply (proj1 (get_chunk_retries offset_world "data/train.csv") 998%nat 0%nat 7
           ["a.mp4,3"; "b.mp4,0"]).
  - reflexivity.
  - reflexivity.
Defined.

(** C8 as stated fails: a reader that rejects every read is read a
    thousand times, not twice, and the load ends in an error. *)
Lemma get_chunk_unbounded :
  _get_chunk rejecting_world "data/train.csv"
    (recursion_limit rejecting_world) 0 7
  = (0, 1000%nat, raise RecursionError).
Proof. vm_compute. reflexivity. Qed.

(* ===================================================================== *)
(** ** What a fetch changes in the object *)
(* ===================================================================== *)

Lemma with_kpts_same (self : Kinetics) : with_kpts self (kpts self) = self.
Proof. destruct self. reflexivity. Qed.

Lemma with_kpts_twice (self : Kinetics) k1 k2 :
  with_kpts (with_kpts self k1) k2 = with_kpts self k2.
Proof. reflexivity. Qed.

Section FetchProofs.
Context {tensor packed : Type}.
Variable w : world tensor.
Variable to_float_cthw : tensor -> tensor.
Variable spatial_sampling : CfgNode -> bool -> sampling -> tensor -> tensor.
Variable pack_pathway_output : CfgNode -> tensor -> packed.

Local Abbreviation attempt' :=
  (attempt w to_float_cthw spatial_sampling pack_pathway_output).
Local Abbreviation retry' :=
  (retry w to_float_cthw spatial_sampling pack_pathway_output).
Local Abbreviation getitem' :=
  (__getitem__ w to_float_cthw spatial_sampling pack_pathway_output).

Lemma load_kpts_frame (self self' : Kinetics) (index : Z) store :
  load_kpts w self index = inr (self', store) ->
  self' = with_kpts self (kpts self') /\ kpts self' !! index = Some store.
Proof.
  unfold load_kpts. destruct (kpts self !! index) eqn:E.
  - intros H. injection H as <- <-. rewrite with_kpts_same. auto.
  - destruct (py_getitem (_path_to_videos self) index); simpl; [discriminate|].
    destruct (pickle_file w (kpts_path s)); [|discriminate].
    intros H. injection H as <- <-. split; [reflexivity|].
    simpl. apply lookup_insert_eq.
Qed.

(** A pass through the loop body changes nothing but the side-file
    cache. *)
Lemma attempt_frame (self : Kinetics) (p : sampling) (i_try index : Z) :
  fst (attempt' self p i_try index)
  = with_kpts self (kpts (fst (attempt' self p i_try index))).
Proof.
  unfold attempt.
  destruct (py_getitem (_path_to_videos self) index);
    [simpl; now rewrite with_kpts_same|].
  destruct (get_video_container w i_try s);
    try (simpl; now rewrite with_kpts_same).
  destruct (video_meta_arg self index); [simpl; now rewrite with_kpts_same|].
  destruct (decode w i_try index); [simpl; now rewrite with_kpts_same|].
  destruct (load_kpts w self index) as [e | [self' store]] eqn:El;
    [simpl; now rewrite with_kpts_same|].
  destruct (load_kpts_frame _ _ _ _ El) as [Hf _].
  destruct (decode_failed frames); [exact Hf|].
  destruct (finish _ _ _ _ _ _ _ _ _ _); exact Hf.
Qed.

Lemma retry_frame (p : sampling) (todo : nat) (i_try : Z) (last : option Z)
    (done : list Z) (self : Kinetics) (index : Z) :
  self_after (retry' p todo i_try last done self index)
  = with_kpts self (kpts (self_after (retry' p todo i_try last done self index))).
Proof.
  revert i_try last done self index.
  induction todo as [|todo IH]; intros i_try last done self index; simpl.
  - now rewrite with_kpts_same.
  - pose proof (attempt_frame self p i_try index) as Hf.
    destruct (attempt' self p i_try index) as [self' [index' | it | e]];
      simpl in Hf |- *; try exact Hf.
    rewrite (IH (i_try + 1) (Some i_try) (index :: done) self' index') at 1.
    rewrite Hf at 1. reflexivity.
Qed.

Lemma getitem_frame (self : Kinetics) (index : Z) :
  self_after (getitem' self index)
  = with_kpts self (kpts (self_after (getitem' self index))).
Proof.
  unfold __getitem__. destruct (sampling_params self index).
  - simpl. now rewrite with_kpts_same.
  - apply retry_frame.
Qed.

(** The loop body is entered at most [todo] times. *)
Lemma retry_bound (p : sampling) (todo : nat) (i_try : Z) (last : option Z)
    (done : list Z) (self : Kinetics) (index : Z) :
  (length (tried (retry' p todo i_try last done self index))
   <= length done + todo)%nat.
Proof.
  revert i_try last done self index.
  induction todo as [|todo IH]; intros i_try last done self index; simpl.
  - lia.
  - destruct (attempt' self p i_try index) as [self' [index' | it | e]];
      simpl; try lia.
    specialize (IH (i_try + 1) (Some i_try) (index :: done) self' index').
    simpl in IH. lia.
Qed.

(* ===================================================================== *)
(** ** One pass through the retry loop *)
(* ===================================================================== *)

Lemma str_in_singleton (m x : string) : str_in m [x] = String.eqb m x.
Proof. unfold str_in. simpl. apply orb_false_r. Qed.

Lemma str_in_test (m : string) : str_in m ["test"] = true <-> m = "test".
Proof. rewrite str_in_singleton. apply String.eqb_eq. Qed.

Lemma str_in_not_test (m : string) : str_in m ["test"] = false <-> m <> "test".
Proof. rewrite str_in_singleton. apply String.eqb_neq. Qed.

Lemma train_val_not_test (m : string) :
  m = "train" \/ m = "val" -> m <> "test".
Proof. intros [-> | ->]; discriminate. Qed.

Lemma another_one_drawn {A} (self : Kinetics) (i_try : Z) :
  0 < num_videos self ->
  @another_one tensor w A self i_try = Continue (drawn_index w self i_try).
Proof.
  intros Hn. unfold another_one, py_randint, drawn_index, num_videos in *.
  destruct (Z.of_nat (length (_path_to_videos self)) - 1 <? 0) eqn:E; [lia|].
  rewrite Z.add_0_l. do 2 f_equal. lia.
Qed.

Lemma drawn_index_range (self : Kinetics) (i_try : Z) :
  0 < num_videos self -> 0 <= drawn_index w self i_try < num_videos self.
Proof. intros Hn. unfold drawn_index. apply Z.mod_pos_bound. exact Hn. Qed.

Lemma getitem_some_videos {A} (l : list A) (i : Z) (a : A) :
  py_getitem l i = inr a -> 0 < Z.of_nat (length l).
Proof. intros H. apply py_getitem_inv in H. lia. Qed.

(** A pass whose container acquisition fails. *)
Lemma attempt_container_failure (self : Kinetics) (p : sampling)
    (i_try index : Z) (path : string) :
  py_getitem (_path_to_videos self) index = inr path ->
  get_video_container w i_try path <> ContainerOk ->
  attempt' self p i_try index
  = (self,
     Continue (if negb (String.eqb (mode self) "test")
                  && (_num_retries self / 8 <? i_try)
               then drawn_index w self i_try else index)).
Proof.
  intros Hp Hc. unfold attempt. rewrite Hp.
  assert (Hn : 0 < num_videos self) by (eapply getitem_some_videos; eauto).
  assert (E : @after_container_failure tensor w (item packed) self i_try index
              = Continue (if negb (String.eqb (mode self) "test")
                             && (_num_retries self / 8 <? i_try)
                          then drawn_index w self i_try else index)).
  { unfold after_container_failure. rewrite str_in_singleton.
    destruct (negb (String.eqb (mode self) "test") && (_num_retries self / 8 <? i_try));
      [apply another_one_drawn; exact Hn | reflexivity]. }
  destruct (get_video_container w i_try path); try congruence; now rewrite E.
Qed.

(** A pass whose decoded frames fail the validation. *)
Lemma attempt_decode_failure (self self' : Kinetics) (p : sampling)
    (i_try index : Z) (path : string) meta frames time_idx tdiff bbox_index
    store :
  py_getitem (_path_to_videos self) index = inr path ->
  get_video_container w i_try path = ContainerOk ->
  video_meta_arg self index = inr meta ->
  decode w i_try index = Decoded frames time_idx tdiff bbox_index ->
  load_kpts w self index = inr (self', store) ->
  decode_failed frames = true ->
  attempt' self p i_try index
  = (self', after_decode_failure w self' i_try index).
Proof.
  intros Hp Hc Hm Hd Hl Hf. unfold attempt.
  rewrite Hp, Hc, Hm, Hd, Hl, Hf. reflexivity.
Qed.

Lemma load_kpts_same_lists (self self' : Kinetics) (index : Z) store :
  load_kpts w self index = inr (self', store) ->
  mode self' = mode self /\ _num_retries self' = _num_retries self
  /\ _path_to_videos self' = _path_to_videos self.
Proof.
  intros H. destruct (load_kpts_frame _ _ _ _ H) as [-> _]. auto.
Qed.

(** How a pass that raises, returns or continues shows in the loop. *)
Lemma retry_raise (self self' : Kinetics) (p : sampling) (i_try index : Z)
    (e : exn) (todo : nat) (last : option Z) (done : list Z) :
  attempt' self p i_try index = (self', Raise e) ->
  retry' p (S todo) i_try last done self index
  = {| tried := index :: done; self_after := self'; returned := raise e |}.
Proof. intros H. simpl. rewrite H. reflexivity. Qed.

Lemma retry_continue (self self' : Kinetics) (p : sampling)
    (i_try index index' : Z) (todo : nat) (last : option Z) (done : list Z) :
  attempt' self p i_try index = (self', Continue index') ->
  retry' p (S todo) i_try last done self index
  = retry' p todo (i_try + 1) (Some i_try) (index :: done) self' index'.
Proof. intros H. simpl. rewrite H. reflexivity. Qed.

(** The index after a failed validation. *)
Lemma decode_failure_index {A} (self self' : Kinetics) (i_try index : Z)
    store :
  load_kpts w self index = inr (self', store) ->
  0 < num_videos self ->
  (mode self = "test" ->
   after_decode_failure (A:=A) w self' i_try index = Continue index)
  /\ (mode self <> "test" -> _num_retries self / 8 <> 0 ->
      after_decode_failure (A:=A) w self' i_try index
      = Continue (if i_try mod (_num_retries self / 8) =? 0
                  then drawn_index w self i_try else index)).
Proof.
  intros Hl Hn.
  destruct (load_kpts_same_lists _ _ _ _ Hl) as (Em & En & Ep).
  assert (Hn' : 0 < num_videos self') by (unfold num_videos in *; now rewrite Ep).
  assert (Ed : drawn_index w self' i_try = drawn_index w self i_try)
    by (unfold drawn_index, num_videos; now rewrite Ep).
  split.
  - intros Hmode. unfold after_decode_failure. rewrite Em.
    apply str_in_test in Hmode. rewrite Hmode. reflexivity.
  - intros Hmode Hz. unfold after_decode_failure.
    rewrite Em, En. apply str_in_not_test in Hmode. rewrite Hmode. simpl negb.
    unfold py_mod. apply Z.eqb_neq in Hz. rewrite Hz. unfold ret.
    destruct (i_try mod (_num_retries self / 8) =? 0); [|reflexivity].
    rewrite another_one_drawn by exact Hn'. now rewrite Ed.
Qed.


(** C9: in train and val modes with num_retries < 8, a pass whose
    container opens and whose decoded frames fail the validation raises
    ZeroDivisionError, which ends the fetch; a budget of zero or less
    makes no pass at all. *)
Theorem small_budget_zero_division (self self' : Kinetics) (p : sampling)
    (i_try index : Z) (path : string) meta frames time_idx tdiff bbox_index
    store :
  mode self = "train" \/ mode self = "val" ->
  _num_retries self < 8 ->
  py_getitem (_path_to_videos self) index = inr path ->
  get_video_container w i_try path = ContainerOk ->
  video_meta_arg self index = inr meta ->
  decode w i_try index = Decoded frames time_idx tdiff bbox_index ->
  load_kpts w self index = inr (self', store) ->
  decode_failed frames = true ->
  (0 <= _num_retries self ->
   attempt' self p i_try index = (self', Raise ZeroDivisionError)
   /\ forall todo last done,
        retry' p (S todo) i_try last done self index
        = {| tried := index :: done; self_after := self';
             returned := raise ZeroDivisionError |})
  /\ (_num_retries self <= 0 -> tried (getitem' self index) = []).
Proof.
  intros Hmode Hlt Hp Hc Hm Hd Hl Hf. split.
  - intros Hge.
    assert (Ha : attempt' self p i_try index = (self', Raise ZeroDivisionError)).
    { rewrite (attempt_decode_failure _ _ _ _ _ _ _ _ _ _ _ _ Hp Hc Hm Hd Hl Hf).
      destruct (load_kpts_same_lists _ _ _ _ Hl) as (Em & En & _).
      unfold after_decode_failure. rewrite Em, En.
      apply train_val_not_test, str_in_not_test in Hmode. rewrite Hmode.
      simpl negb. unfold py_mod.
      replace (_num_retries self / 8) with 0
        by (symmetry; apply Z.div_small; lia).
      reflexivity. }
    split; [exact Ha|]. intros todo last done. now apply retry_raise.
  - intros Hle. unfold __getitem__.
    destruct (sampling_params self index); [reflexivity|].
    replace (Z.to_nat (_num_retries self)) with O by lia. reflexivity.
Qed.

(* ===================================================================== *)
(** ** Side files *)
(* ===================================================================== *)

Lemma substring_none (n : nat) (s : string) : String.substring n 0 s = "".
Proof.
  revert s. induction n as [|n IH]; intros s; destruct s; simpl; auto.
Qed.



Lemma py_slice_0_m10 (s : string) :
  (10 <= String.length s)%nat ->
  py_slice s 0 (-10) = String.substring 0 (String.length s - 10) s.
Proof.
  intros Hlen. unfold py_slice, py_clamp.
  change (0 <? 0) with false. change (-10 <? 0) with true. cbv iota.
  rewrite (Z.min_r _ 0) by lia. rewrite (Z.max_r 0 0) by lia.
  rewrite Z.min_r by lia. rewrite Z.max_r by lia.
  destruct (-10 + Z.of_nat (String.length s) <=? 0) eqn:E.
  - replace (String.length s - 10)%nat with O by lia.
    now rewrite substring_none.
  - f_equal; lia.
Qed.




Local Abbreviation finish' :=
  (finish to_float_cthw spatial_sampling pack_pathway_output).









(* ===================================================================== *)
(** ** Exhaustion of the retry budget *)
(* ===================================================================== *)

Lemma cache_grown_refl (self : Kinetics) : cache_grown self self.
Proof. split; [now rewrite with_kpts_same | auto]. Qed.

Lemma load_kpts_grows (self self' : Kinetics) (index : Z) store :
  load_kpts w self index = inr (self', store) ->
  forall j, kpts self !! j <> None -> kpts self' !! j <> None.
Proof.
  unfold load_kpts. destruct (kpts self !! index) eqn:E.
  - intros H. injection H as <- <-. auto.
  - destruct (py_getitem (_path_to_videos self) index); simpl; [discriminate|].
    destruct (pickle_file w (kpts_path s)); [|discriminate].
    intros H. injection H as <- <-. intros j Hj. simpl.
    destruct (decide (index = j)) as [-> | Hne].
    + rewrite lookup_insert_eq. discriminate.
    + now rewrite lookup_insert_ne.
Qed.

Lemma load_kpts_available (self : Kinetics) (index : Z) (path : string) :
  py_getitem (_path_to_videos self) index = inr path ->
  kpts self !! index <> None \/ pickle_file w (kpts_path path) <> None ->
  exists self' store, load_kpts w self index = inr (self', store).
Proof.
  intros Hp Hk. unfold load_kpts.
  destruct (kpts self !! index) as [store|] eqn:E; [eauto|].
  rewrite Hp. simpl.
  destruct (pickle_file w (kpts_path path)) as [store|]; [eauto|].
  destruct Hk; congruence.
Qed.

Lemma path_at_getitem (self : Kinetics) (index : Z) :
  in_dataset self index ->
  py_getitem (_path_to_videos self) index = inr (path_at self index).
Proof.
  intros Hi. unfold path_at.
  destruct (py_getitem_total (_path_to_videos self) index Hi) as [path ->].
  reflexivity.
Qed.

(** A failing pass continues the loop on the next index, which is an
    index of the dataset. *)
Lemma failing_pass_next (self0 self : Kinetics) (p : sampling)
    (i_try index : Z) :
  cache_grown self0 self ->
  in_dataset self0 index ->
  pass_fails w self0 i_try index (path_at self0 index) ->
  exists self',
    attempt' self p i_try index
    = (self', Continue (next_index w self0 i_try index))
    /\ cache_grown self0 self'
    /\ in_dataset self0 (next_index w self0 i_try index).
Proof.
  intros [Hs Hg] Hi Hfail.
  pose proof (path_at_getitem self0 index Hi) as Hp.
  assert (Epaths : _path_to_videos self = _path_to_videos self0) by now rewrite Hs.
  assert (Emode : mode self = mode self0) by now rewrite Hs.
  assert (Eretries : _num_retries self = _num_retries self0) by now rewrite Hs.
  assert (Emeta : video_meta_arg self index = video_meta_arg self0 index)
    by now rewrite Hs.
  assert (Edraw : drawn_index w self i_try = drawn_index w self0 i_try)
    by (unfold drawn_index, num_videos; now rewrite Epaths).
  assert (Hp' : py_getitem (_path_to_videos self) index
                = inr (path_at self0 index)) by now rewrite Epaths.
  assert (Hn : 0 < num_videos self0) by (unfold in_dataset in Hi; lia).
  pose proof (drawn_index_range self0 i_try Hn) as Hrange.
  assert (Hnext : in_dataset self0 (next_index w self0 i_try index)).
  { unfold next_index, in_dataset in *.
    destruct (String.eqb (mode self0) "test"); [exact Hi|].
    destruct (get_video_container w i_try (path_at self0 index)).
    - destruct (_num_retries self0 / 8 <? i_try); assumption.
    - destruct (_num_retries self0 / 8 <? i_try); assumption.
    - destruct (i_try mod (_num_retries self0 / 8) =? 0); assumption. }
  destruct Hfail as [Hc | (Hc & (meta & Hm) & (frames & ti & td & bi & Hd & Hf) & Hk & Hz)].
  - exists self. split; [|split; [split; assumption | exact Hnext]].
    rewrite (attempt_container_failure _ _ _ _ _ Hp' Hc).
    rewrite Emode, Eretries, Edraw. unfold next_index.
    destruct (String.eqb (mode self0) "test"); [reflexivity|]. simpl.
    destruct (get_video_container w i_try (path_at self0 index));
      [reflexivity | reflexivity | congruence].
  - rewrite <- Emeta in Hm.
    assert (Hk' : kpts self !! index <> None
                  \/ pickle_file w (kpts_path (path_at self0 index)) <> None)
      by (destruct Hk; auto).
    destruct (load_kpts_available _ _ _ Hp' Hk') as (self' & store & Hl).
    destruct (load_kpts_frame _ _ _ _ Hl) as [Hs' _].
    pose proof (load_kpts_grows _ _ _ _ Hl) as Hg'.
    assert (Hgrown : cache_grown self0 self').
    { split.
      - rewrite Hs' at 1. rewrite Hs. reflexivity.
      - intros j Hj. apply Hg', Hg, Hj. }
    assert (Hn' : 0 < num_videos self)
      by (unfold num_videos in *; now rewrite Epaths).
    destruct (decode_failure_index (A:=item packed) self self' i_try index
                store Hl Hn') as [Htest Hother].
    rewrite Emode in Htest, Hother. rewrite Eretries, Edraw in Hother.
    rewrite (attempt_decode_failure _ _ p _ _ _ _ _ _ _ _ _ Hp' Hc Hm Hd Hl Hf).
    exists self'. split; [|split; [exact Hgrown | exact Hnext]].
    unfold next_index. rewrite Hc.
    destruct (String.eqb_spec (mode self0) "test") as [Et | Et].
    + now rewrite (Htest Et).
    + destruct Hz as [Hz | Hz]; [congruence|].
      now rewrite (Hother Et Hz).
Qed.

Lemma rev_visited_step {A} (f : nat -> A) (k : nat) :
  rev (map f (seq 0 (S k))) = f k :: rev (map f (seq 0 k)).
Proof. rewrite seq_S, map_app, rev_app_distr. reflexivity. Qed.

Section Budget.
Variable self0 : Kinetics.
Variable p : sampling.
Variable index0 : Z.
Hypothesis every_pass_made_fails :
  forall k : nat,
    Z.of_nat k < _num_retries self0 ->
    pass_fails w self0 (Z.of_nat k) (visited w self0 index0 k)
      (path_at self0 (visited w self0 index0 k)).

(** With [S todo] failing passes left after [k] failed ones, the loop
    makes them on the indices visited and ends in its [else] clause. *)
Lemma retry_visits (todo : nat) :
  forall (k : nat) (lst : option Z) (self : Kinetics),
    cache_grown self0 self ->
    in_dataset self0 (visited w self0 index0 k) ->
    Z.of_nat (k + S todo) = _num_retries self0 ->
    tried (retry' p (S todo) (Z.of_nat k) lst
             (rev (map (visited w self0 index0) (seq 0 k))) self
             (visited w self0 index0 k))
    = rev (map (visited w self0 index0) (seq 0 (k + S todo)))
    /\ returned (retry' p (S todo) (Z.of_nat k) lst
                   (rev (map (visited w self0 index0) (seq 0 k))) self
                   (visited w self0 index0 k))
       = raise (RuntimeError fetch_failed
                  [PInt (visited w self0 index0 (k + S todo));
                   PStr (path_at self0 (visited w self0 index0 (k + S todo)));
                   PInt (_num_retries self0 - 1)])
    /\ in_dataset self0 (visited w self0 index0 (k + S todo)).
Proof.
  induction todo as [|todo IH]; intros k lst self Hg Hi Hn.
  - destruct (failing_pass_next self0 self p (Z.of_nat k) _ Hg Hi
                (every_pass_made_fails k ltac:(lia)))
      as (self' & Ha & [Hs' Hg'] & Hi').
    change (next_index w self0 (Z.of_nat k) (visited w self0 index0 k))
      with (visited w self0 index0 (S k)) in *.
    rewrite (retry_continue _ _ _ _ _ _ O lst _ Ha). simpl retry.
    replace (k + 1)%nat with (S k) by lia.
    rewrite rev_visited_step. simpl tried. simpl returned.
    split; [reflexivity|]. split; [|exact Hi'].
    unfold exhausted.
    replace (_path_to_videos self') with (_path_to_videos self0)
      by (rewrite Hs'; reflexivity).
    change (next_index w self0 (Z.of_nat k) (visited w self0 index0 k))
      with (visited w self0 index0 (S k)).
    rewrite (path_at_getitem self0 _ Hi').
    replace (_num_retries self0 - 1) with (Z.of_nat k) by lia.
    reflexivity.
  - destruct (failing_pass_next self0 self p (Z.of_nat k) _ Hg Hi
                (every_pass_made_fails k ltac:(lia)))
      as (self' & Ha & Hg' & Hi').
    change (next_index w self0 (Z.of_nat k) (visited w self0 index0 k))
      with (visited w self0 index0 (S k)) in *.
    rewrite (retry_continue _ _ _ _ _ _ (S todo) lst _ Ha).
    rewrite <- rev_visited_step.
    replace (Z.of_nat k + 1) with (Z.of_nat (S k)) by lia.
    replace (k + S (S todo))%nat with (S k + S todo)%nat by lia.
    apply IH; auto. lia.
Qed.

End Budget.

(** X16: a fetch makes at most num_retries passes.  With
    num_retries >= 1 and a requested index of the dataset, when every
    pass that is made fails (its container is not acquired, or its
    decoded frame list is null or has a null entry), the passes are made
    on the indices the replacement tests leave one after the other, and
    after exactly num_retries passes the fetch raises the exhaustion
    RuntimeError, which names the index held after the last pass, the
    path of that index and the pass number num_retries - 1; no failure
    of a pass propagates. *)
Theorem exhaustion_after_failed_passes (self : Kinetics) (index : Z) :
  (attempts (getitem' self index) <= Z.to_nat (_num_retries self))%nat
  /\ (forall p : sampling,
        sampling_params self index = inr p ->
        1 <= _num_retries self ->
        in_dataset self index ->
        (forall k : nat,
           Z.of_nat k < _num_retries self ->
           pass_fails w self (Z.of_nat k) (visited w self index k)
             (path_at self (visited w self index k))) ->
        tried (getitem' self index)
        = rev (map (visited w self index)
                 (seq 0 (Z.to_nat (_num_retries self))))
        /\ attempts (getitem' self index) = Z.to_nat (_num_retries self)
        /\ returned (getitem' self index)
           = raise (RuntimeError fetch_failed
                      [PInt (visited w self index (Z.to_nat (_num_retries self)));
                       PStr (path_at self
                               (visited w self index
                                  (Z.to_nat (_num_retries self))));
                       PInt (_num_retries self - 1)])
        /\ in_dataset self
             (visited w self index (Z.to_nat (_num_retries self)))).
Proof.
  split.
  - unfold attempts, __getitem__.
    destruct (sampling_params self index) as [e | p]; [simpl; lia|].
    pose proof (retry_bound p (Z.to_nat (_num_retries self)) 0 None [] self
                  index) as Hb.
    simpl in Hb. exact Hb.
  - intros p Hp Hn Hi Hfail. unfold attempts, __getitem__. rewrite Hp.
    destruct (Z.to_nat (_num_retries self)) as [|todo] eqn:En; [lia|].
    assert (H : tried (retry' p (S todo) 0 None [] self index)
                = rev (map (visited w self index) (seq 0 (S todo)))
                /\ returned (retry' p (S todo) 0 None [] self index)
                   = raise (RuntimeError fetch_failed
                              [PInt (visited w self index (S todo));
                               PStr (path_at self (visited w self index (S todo)));
                               PInt (_num_retries self - 1)])
                /\ in_dataset self (visited w self index (S todo)))
      by exact (retry_visits self p index Hfail todo O None self
                  (cache_grown_refl self) Hi ltac:(lia)).
    destruct H as (Ht & Hr & Hin).
    rewrite Ht, Hr. split; [reflexivity|]. split; [|split; [reflexivity|exact Hin]].
    rewrite length_rev, length_map, length_seq. reflexivity.
Qed.

End FetchProofs.

(* ===================================================================== *)
(** ** The parallel lists of a constructed dataset *)
(* ===================================================================== *)

Lemma construct_inv {tensor} (w : world tensor) (self ds : Kinetics) :
  _construct_loader w self = inr ds ->
  exists lines self1 rows es,
    manifest w (manifest_path self) = Some lines
    /\ read_rows w (reset_loader self) lines = inr (self1, rows)
    /\ map_result (parse_row (cfg self) (manifest_path self)) rows = inr es
    /\ ds = append_entries self1 0 es.
Proof.
  unfold _construct_loader.
  destruct (manifest w (manifest_path self)) as [lines|] eqn:Hm;
    [|discriminate].
  destruct (read_rows w (reset_loader self) lines) as [e | [self1 rows]] eqn:Hr;
    [discriminate|].
  simpl bind. rewrite load_rows_spec.
  destruct (read_rows_lists _ _ _ _ _ Hr) as (_ & _ & _ & Hc & _).
  change (cfg (reset_loader self)) with (cfg self) in Hc.
  simpl fst. simpl snd. rewrite Hc.
  destruct (map_result (parse_row (cfg self) (manifest_path self)) rows)
    as [e | es] eqn:Hes; [discriminate|].
  simpl bind.
  destruct (0 <? Z.of_nat (length (_path_to_videos (append_entries self1 0 es))));
    [|discriminate].
  intros H. injection H as <-.
  exists lines, self1, rows, es. auto.
Qed.

Section OperationsFrame.
Context {tensor packed : Type}.
Variable to_float_cthw : tensor -> tensor.
Variable spatial_sampling : CfgNode -> bool -> sampling -> tensor -> tensor.
Variable pack_pathway_output : CfgNode -> tensor -> packed.

Local Abbreviation run_op' :=
  (run_op to_float_cthw spatial_sampling pack_pathway_output).
Local Abbreviation run_ops' :=
  (run_ops to_float_cthw spatial_sampling pack_pathway_output).

(** No operation touches the three lists. *)
Lemma run_op_lists (self : Kinetics) (op : operation) :
  _path_to_videos (run_op' self op) = _path_to_videos self
  /\ _labels (run_op' self op) = _labels self
  /\ _spatial_temporal_idx (run_op' self op) = _spatial_temporal_idx self.
Proof.
  destruct op as [w index | e | |]; simpl; auto.
  rewrite (getitem_frame w to_float_cthw spatial_sampling pack_pathway_output
             self index).
  simpl. auto.
Qed.

Lemma run_ops_lists (ops : list operation) (self : Kinetics) :
  _path_to_videos (run_ops' self ops) = _path_to_videos self
  /\ _labels (run_ops' self ops) = _labels self
  /\ _spatial_temporal_idx (run_ops' self ops) = _spatial_temporal_idx self.
Proof.
  revert self. induction ops as [|op ops IH]; intros self; simpl; [auto|].
  destruct (IH (run_op' self op)) as (-> & -> & ->).
  apply run_op_lists.
Qed.

(** C6: after a construction that returns, the paths, the labels and
    the spatial-temporal indices have the same length, every later
    operation (fetch, epoch setter, length accessors) keeps it so, and
    the length of the dataset is the number of parsed manifest rows. *)
Theorem lengths_invariant (w : world tensor) (c : CfgNode) (m : string)
    (n : Z) (ds : Kinetics) :
  __init__ w c m n = inr ds ->
  exists lines self1 rows es,
    manifest w (manifest_path (blank c m n)) = Some lines
    /\ read_rows w (reset_loader (blank c m n)) lines = inr (self1, rows)
    /\ map_result (parse_row c (manifest_path (blank c m n))) rows = inr es
    /\ length es = length rows
    /\ forall ops : list operation,
         lengths_agree (run_ops' ds ops)
         /\ __len__ (run_ops' ds ops) = Z.of_nat (length es).
Proof.
  unfold __init__.
  destruct (negb (str_in m ["train"; "val"; "test"])); [discriminate|].
  destruct (_construct_loader w (blank c m n)) as [e | ds0] eqn:Hc;
    [discriminate|].
  simpl. intros H. injection H as <-.
  destruct (construct_inv _ _ _ Hc) as (lines & self1 & rows & es & Hm & Hr & Hes & ->).
  exists lines, self1, rows, es.
  repeat split; try assumption.
  - eapply map_result_length; eauto.
  - destruct (run_ops_lists ops (with_kpts (append_entries self1 0 es) ∅))
      as (-> & -> & _).
    simpl.
    destruct (append_entries_fields es self1 0) as (-> & -> & _).
    destruct (read_rows_lists _ _ _ _ _ Hr) as (-> & -> & _).
    simpl. now rewrite !length_map.
  - destruct (run_ops_lists ops (with_kpts (append_entries self1 0 es) ∅))
      as (_ & -> & ->).
    simpl.
    destruct (append_entries_fields es self1 0) as (_ & -> & -> & _).
    destruct (read_rows_lists _ _ _ _ _ Hr) as (_ & -> & -> & _).
    simpl. now rewrite !length_map.
  - unfold __len__, num_videos.
    destruct (run_ops_lists ops (with_kpts (append_entries self1 0 es) ∅))
      as (-> & _).
    simpl.
    destruct (append_entries_fields es self1 0) as (-> & _).
    destruct (read_rows_lists _ _ _ _ _ Hr) as (-> & _).
    simpl. now rewrite length_map.
Qed.

End OperationsFrame.

Lemma lengths_invariant_witness :
  exists lines self1 rows es,
    manifest one_line_world (manifest_path (blank one_line_cfg "val" 100))
    = Some lines
    /\ read_rows one_line_world (reset_loader (blank one_line_cfg "val" 100)) lines
       = inr (self1, rows)
    /\ map_result
         (parse_row one_line_cfg (manifest_path (blank one_line_cfg "val" 100)))
         rows = inr es
    /\ length es = length rows
    /\ forall ops : list operation,
         lengths_agree
           (run_ops (fun t : unit => t) (fun _ _ _ t => t) (fun _ t => t)
              one_line_dataset ops)
         /\ __len__
              (run_ops (fun t : unit => t) (fun _ _ _ t => t) (fun _ t => t)
                 one_line_dataset ops)
            = Z.of_nat (length es).
Proof.
  apply (lengths_invariant (fun t : unit => t) (fun _ _ _ t => t)
           (fun _ t => t) one_line_world one_line_cfg "val" 100
           one_line_dataset).
  reflexivity.
Defined.

Example one_line_dataset_entries :
  _path_to_videos one_line_dataset = ["videos/a.mp4"]
  /\ _labels one_line_dataset = [3]
  /\ _spatial_temporal_idx one_line_dataset = [0]
  /\ __len__ one_line_dataset = 1.
Proof. repeat split; reflexivity. Qed.

(* ===================================================================== *)
(** ** Concrete fetches *)
(* ===================================================================== *)

(** C1: the code at the failing input.  In train mode with a budget of
    two passes, two videos and no container to acquire, both passes are
    made on index 0; the replacement drawn after the last pass is 1, and
    the exhaustion error names index 1 and its path, an index that was
    never tried, where the claim has the last-tried index 0. *)
Lemma exhaustion_names_untried_index :
  tried (__getitem__ no_container_world unit_float unit_sampling unit_pack
           (two_videos "train" 2) 0) = [0; 0]
  /\ returned (__getitem__ no_container_world unit_float unit_sampling unit_pack
                 (two_videos "train" 2) 0)
     = raise (RuntimeError fetch_failed
                [PInt 1; PStr "videos/b.mp4"; PInt 1]).
Proof. split; vm_compute; reflexivity. Qed.

Lemma exhaustion_after_failed_passes_witness :
  tried (__getitem__ first_unreadable_world unit_float unit_sampling unit_pack
           (two_videos "test" 3) 0)
  = rev (map (visited first_unreadable_world (two_videos "test" 3) 0)
           (seq 0 (Z.to_nat (_num_retries (two_videos "test" 3)))))
  /\ attempts (__getitem__ first_unreadable_world unit_float unit_sampling
                 unit_pack (two_videos "test" 3) 0)
     = Z.to_nat (_num_retries (two_videos "test" 3))
  /\ returned (__getitem__ first_unreadable_world unit_float unit_sampling
                 unit_pack (two_videos "test" 3) 0)
     = raise (RuntimeError fetch_failed
                [PInt (visited first_unreadable_world (two_videos "test" 3) 0
                         (Z.to_nat (_num_retries (two_videos "test" 3))));
                 PStr (path_at (two_videos "test" 3)
                         (visited first_unreadable_world (two_videos "test" 3) 0
                            (Z.to_nat (_num_retries (two_videos "test" 3)))));
                 PInt (_num_retries (two_videos "test" 3) - 1)])
  /\ in_dataset (two_videos "test" 3)
       (visited first_unreadable_world (two_videos "test" 3) 0
          (Z.to_nat (_num_retries (two_videos "test" 3)))).
Proof.
  apply (proj2 (exhaustion_after_failed_passes first_unreadable_world
                  unit_float unit_sampling unit_pack (two_videos "test" 3) 0)
           params_two_videos_test).
  - reflexivity.
  - simpl. lia.
  - unfold in_dataset, num_videos. simpl. lia.
  - intros k Hk.
    assert (Hv : visited first_unreadable_world (two_videos "test" 3) 0 k = 0)
      by (induction k as [|k IH]; [reflexivity | simpl; rewrite IH by lia;
          reflexivity]).
    rewrite Hv. left. discriminate.
Defined.

Example exhaustion_on_one_bad_video :
  __getitem__ first_unreadable_world unit_float unit_sampling unit_pack
    (two_videos "test" 3) 0
  = {| tried := [0; 0; 0]; self_after := two_videos "test" 3;
       returned := raise (RuntimeError fetch_failed
                            [PInt 0; PStr "videos/a.mp4"; PInt 2]) |}.
Proof. vm_compute. reflexivity. Qed.

Example exhaustion_in_test_mode :
  __getitem__ no_container_world unit_float unit_sampling unit_pack
    (two_videos "test" 3) 1
  = {| tried := [1; 1; 1]; self_after := two_videos "test" 3;
       returned := raise (RuntimeError fetch_failed
                            [PInt 1; PStr "videos/b.mp4"; PInt 2]) |}.
Proof. vm_compute. reflexivity. Qed.

Example no_pass_no_binding :
  returned (__getitem__ no_container_world unit_float unit_sampling unit_pack
              (two_videos "train" 0) 0)
  = raise (UnboundLocalError "i_try").
Proof. vm_compute. reflexivity. Qed.


Example replacement_passes :
  let pass i := snd (attempt no_container_world unit_float unit_sampling
                       unit_pack (two_videos "train" 16) fixed_256 i 0) in
  let check i := snd (attempt no_frames_world unit_float unit_sampling
                        unit_pack (two_videos "train" 16) fixed_256 i 0) in
  pass 0 = Continue 0 /\ pass 2 = Continue 0 /\ pass 3 = Continue 1
  /\ check 0 = Continue 1 /\ check 1 = Continue 0 /\ check 2 = Continue 1
  /\ check 3 = Continue 0.
Proof. vm_compute. repeat split; reflexivity. Qed.

Lemma small_budget_zero_division_witness :
  (0 <= _num_retries (two_videos "train" 4) ->
   attempt no_frames_world unit_float unit_sampling unit_pack
     (two_videos "train" 4) fixed_256 0 0
   = (with_kpts (two_videos "train" 4) (<[0 := ∅]> ∅), Raise ZeroDivisionError)
   /\ forall todo lst done,
        retry no_frames_world unit_float unit_sampling unit_pack fixed_256
          (S todo) 0 lst done (two_videos "train" 4) 0
        = {| tried := 0 :: done;
             self_after := with_kpts (two_videos "train" 4) (<[0 := ∅]> ∅);
             returned := raise ZeroDivisionError |})
  /\ (_num_retries (two_videos "train" 4) <= 0 ->
      tried (__getitem__ no_frames_world unit_float unit_sampling unit_pack
               (two_videos "train" 4) 0) = []).
Proof.
  apply (small_budget_zero_division no_frames_world unit_float unit_sampling
           unit_pack (two_videos "train" 4)
           (with_kpts (two_videos "train" 4) (<[0 := ∅]> ∅))
           fixed_256 0 0 "videos/a.mp4" ∅ None [] false [] ∅).
  - left. reflexivity.
  - simpl. lia.
  - reflexivity.
  - reflexivity.
  - vm_compute. reflexivity.
  - reflexivity.
  - vm_compute. reflexivity.
  - reflexivity.
Defined.

Example small_budget_fetch :
  returned (__getitem__ no_frames_world unit_float unit_sampling unit_pack
              (two_videos "val" 7) 0)
  = raise ZeroDivisionError
  /\ tried (__getitem__ no_frames_world unit_float unit_sampling unit_pack
              (two_videos "val" 7) 0) = [0].
Proof. split; vm_compute; reflexivity. Qed.


Example side_file_path :
  kpts_path "/home/psriram2/SlowFast/data/videos_256/video93_20fps_256.mp4"
  = "./data/videovideo93_20f_kpts"
  /\ vid_name_of "/home/psriram2/SlowFast/data/videos_256/video93_20fps_256.mp4"
     = ret "video93_20f.mp4"
  /\ kpts_path "videos/a.mp4" = "./data/video_kpts".
Proof. repeat split; reflexivity. Qed.

Example successful_fetch :
  returned (__getitem__ (triangle_world 4) unit_float unit_sampling unit_pack
              (one_video "train" 100) 0)
  = ret {| frames_out := tt; label_out := 1; index_out := 0;
           time_idx_out := [[0; 8]]; aux_out := ∅;
           bboxes_out := [[[[2; 3]; [8; 3]; [8; 10]; [2; 10]]]] |}
  /\ tried (__getitem__ (triangle_world 4) unit_float unit_sampling unit_pack
              (one_video "train" 100) 0) = [0]
  /\ kpts (self_after (__getitem__ (triangle_world 4) unit_float unit_sampling
                         unit_pack (one_video "train" 100) 0)) !! 0
     = Some triangle_store.
Proof. repeat split; vm_compute; reflexivity. Qed.

Example missing_frame_name :
  returned (__getitem__ (triangle_world 5) unit_float unit_sampling unit_pack
              (one_video "train" 100) 0)
  = raise (KeyError (PStr "frame5"))
  /\ tried (__getitem__ (triangle_world 5) unit_float unit_sampling unit_pack
              (one_video "train" 100) 0) = [0].
Proof. split; vm_compute; reflexivity. Qed.

Example missing_video_name :
  returned (__getitem__ (triangle_world 4) unit_float unit_sampling unit_pack
              (two_videos "val" 100) 0)
  = raise (KeyError (PStr ".mp4"))
  /\ tried (__getitem__ (triangle_world 4) unit_float unit_sampling unit_pack
              (two_videos "val" 100) 0) = [0].
Proof. split; vm_compute; reflexivity. Qed.

(** The side file is read before the frames are validated: a decode
    without frames on a video without side file ends the fetch. *)
Example missing_side_file_before_validation :
  let w := {| manifest := fun _ => None;
              read_csv := fun _ _ _ => CsvRaises;
              recursion_limit := 1000;
              get_video_container := fun _ _ => ContainerOk;
              decode := fun _ _ => @Decoded unit None [] false [];
              random_draw := fun _ => 0;
              pickle_file := fun _ => None |} in
  returned (__getitem__ w unit_float unit_sampling unit_pack
              (two_videos "test" 100) 0)
  = raise (FileNotFoundError "./data/video_kpts")
  /\ tried (__getitem__ w unit_float unit_sampling unit_pack
              (two_videos "test" 100) 0) = [0].
Proof. split; vm_compute; reflexivity. Qed.

(* ===================================================================== *)
(** ** Further properties of the fetch *)
(* ===================================================================== *)

Section FetchInvariants.
Context {tensor packed : Type}.
Variable w : world tensor.
Variable to_float_cthw : tensor -> tensor.
Variable spatial_sampling : CfgNode -> bool -> sampling -> tensor -> tensor.
Variable pack_pathway_output : CfgNode -> tensor -> packed.

Local Abbreviation attempt' :=
  (attempt w to_float_cthw spatial_sampling pack_pathway_output).
Local Abbreviation retry' :=
  (retry w to_float_cthw spatial_sampling pack_pathway_output).
Local Abbreviation getitem' :=
  (__getitem__ w to_float_cthw spatial_sampling pack_pathway_output).
Local Abbreviation finish' :=
  (finish to_float_cthw spatial_sampling pack_pathway_output).

Lemma another_one_keeps_or_draws {A} (self : Kinetics) (i_try index : Z) :
  mode self <> "test" ->
  keeps_or_draws self index (another_one (A:=A) w self i_try).
Proof.
  intros Hm. unfold another_one, py_randint.
  destruct (Z.of_nat (length (_path_to_videos self)) - 1 <? 0) eqn:E;
    [exact I|].
  simpl. right. split; [exact Hm|].
  rewrite Z.add_0_l.
  replace (Z.of_nat (length (_path_to_videos self)) - 1 - 0 + 1)
    with (num_videos self) by (unfold num_videos; lia).
  apply Z.mod_pos_bound. unfold num_videos. lia.
Qed.

Lemma after_container_failure_keeps_or_draws {A} (self : Kinetics)
    (i_try index : Z) :
  keeps_or_draws self index (after_container_failure (A:=A) w self i_try index).
Proof.
  unfold after_container_failure. rewrite str_in_singleton.
  destruct (String.eqb_spec (mode self) "test") as [Et | Et]; simpl.
  - now left.
  - destruct (_num_retries self / 8 <? i_try); [|now left].
    now apply another_one_keeps_or_draws.
Qed.

Lemma after_decode_failure_keeps_or_draws {A} (self : Kinetics)
    (i_try index : Z) :
  keeps_or_draws self index (after_decode_failure (A:=A) w self i_try index).
Proof.
  unfold after_decode_failure. rewrite str_in_singleton.
  destruct (String.eqb_spec (mode self) "test") as [Et | Et]; simpl.
  - now left.
  - destruct (py_mod i_try (_num_retries self / 8)) as [e | r]; [exact I|].
    destruct (r =? 0); [|now left].
    now apply another_one_keeps_or_draws.
Qed.

(** A pass that continues keeps the index or, outside test mode, moves
    to an index of the dataset. *)
Lemma attempt_continue_cases (self self' : Kinetics) (p : sampling)
    (i_try index j : Z) :
  attempt' self p i_try index = (self', Continue j) ->
  j = index \/ (mode self <> "test" /\ in_dataset self j).
Proof.
  unfold attempt.
  destruct (py_getitem (_path_to_videos self) index) as [e | path];
    [discriminate|].
  pose proof (after_container_failure_keeps_or_draws (A:=item packed)
                self i_try index) as Hc.
  destruct (get_video_container w i_try path).
  - intros H. injection H as <- H. rewrite H in Hc. exact Hc.
  - intros H. injection H as <- H. rewrite H in Hc. exact Hc.
  - destruct (video_meta_arg self index); [discriminate|].
    destruct (decode w i_try index); [discriminate|].
    destruct (load_kpts w self index) as [e | [self1 store]] eqn:El;
      [discriminate|].
    destruct (load_kpts_same_lists _ _ _ _ _ El) as (Em & _ & Ep).
    destruct (decode_failed frames).
    + pose proof (after_decode_failure_keeps_or_draws (A:=item packed)
                    self1 i_try index) as Hd.
      intros H. injection H as <- H. rewrite H in Hd. simpl in Hd.
      unfold in_dataset, num_videos in *. rewrite Em, Ep in Hd. exact Hd.
    + destruct (finish _ _ _ _ _ _ _ _ _ _); discriminate.
Qed.

(** A property of the current index that every continuing pass keeps
    holds of every index tried. *)
Lemma retry_tried_invariant (P : Z -> Prop) (self0 : Kinetics) (p : sampling) :
  (forall self self' i_try index j,
     self = with_kpts self0 (kpts self) ->
     P index -> attempt' self p i_try index = (self', Continue j) -> P j) ->
  forall (todo : nat) (i_try : Z) (lst : option Z) (done : list Z)
         (self : Kinetics) (index : Z),
    self = with_kpts self0 (kpts self) ->
    P index -> Forall P done ->
    Forall P (tried (retry' p todo i_try lst done self index)).
Proof.
  intros Hstep. induction todo as [|todo IH];
    intros i_try lst done self index Hs Hi Hd; simpl; [exact Hd|].
  pose proof (attempt_frame w to_float_cthw spatial_sampling
                pack_pathway_output self p i_try index) as Hf.
  destruct (attempt' self p i_try index) as [self' [j | it | e]] eqn:Ha;
    simpl in *; try (constructor; assumption).
  apply IH.
  - rewrite Hf at 1. rewrite Hs. reflexivity.
  - eapply Hstep; eauto.
  - constructor; assumption.
Qed.

(** X1: in test mode every pass of a fetch is made on the index the
    fetch was called with, whatever the collaborators answer. *)
Theorem test_mode_tries_one_index (self : Kinetics) (index : Z) :
  mode self = "test" ->
  Forall (fun j => j = index) (tried (getitem' self index)).
Proof.
  intros Hm. unfold __getitem__.
  destruct (sampling_params self index) as [e | p]; [constructor|].
  apply (retry_tried_invariant (fun j => j = index) self p).
  - intros s s' i idx j Hs -> Ha.
    destruct (attempt_continue_cases _ _ _ _ _ _ Ha) as [-> | [Hne _]];
      [reflexivity|].
    rewrite Hs in Hne. simpl in Hne. congruence.
  - now rewrite with_kpts_same.
  - reflexivity.
  - constructor.
Qed.

(** X2: a fetch called with an index of the dataset makes every pass
    on an index of the dataset: replacement draws never leave
    [0, num_videos). *)
Theorem tried_indices_in_dataset (self : Kinetics) (index : Z) :
  in_dataset self index ->
  Forall (in_dataset self) (tried (getitem' self index)).
Proof.
  intros Hi. unfold __getitem__.
  destruct (sampling_params self index) as [e | p]; [constructor|].
  apply (retry_tried_invariant (in_dataset self) self p).
  - intros s s' i idx j Hs Hidx Ha.
    destruct (attempt_continue_cases _ _ _ _ _ _ Ha) as [-> | [_ Hj]];
      [exact Hidx|].
    rewrite Hs in Hj. exact Hj.
  - now rewrite with_kpts_same.
  - exact Hi.
  - constructor.
Qed.

End FetchInvariants.

Lemma test_mode_tries_one_index_witness :
  Forall (fun j => j = 1)
    (tried (__getitem__ no_frames_world unit_float unit_sampling unit_pack
              (two_videos "test" 5) 1)).
Proof.
  apply (test_mode_tries_one_index no_frames_world unit_float unit_sampling
           unit_pack (two_videos "test" 5) 1).
  reflexivity.
Defined.

Lemma tried_indices_in_dataset_witness :
  Forall (in_dataset (two_videos "train" 16))
    (tried (__getitem__ no_frames_world unit_float unit_sampling unit_pack
              (two_videos "train" 16) 0)).
Proof.
  apply (tried_indices_in_dataset no_frames_world unit_float unit_sampling
           unit_pack (two_videos "train" 16) 0).
  unfold in_dataset, num_videos. simpl. lia.
Defined.

Example test_mode_five_passes :
  tried (__getitem__ no_frames_world unit_float unit_sampling unit_pack
           (two_videos "test" 5) 1) = [1; 1; 1; 1; 1].
Proof. vm_compute. reflexivity. Qed.

Lemma map_result_Forall {A B} (f : A -> result B) (Q : B -> Prop) :
  (forall a b, f a = inr b -> Q b) ->
  forall (l : list A) (bs : list B), map_result f l = inr bs -> Forall Q bs.
Proof.
  intros Hf. induction l as [|a l IH]; simpl; intros bs H.
  - injection H as <-. constructor.
  - destruct (f a) as [e | b] eqn:Ea; simpl in H; [discriminate|].
    destruct (map_result f l) as [e | bs'] eqn:El; simpl in H; [discriminate|].
    injection H as <-. constructor; [eapply Hf; eauto | now apply IH].
Qed.

Lemma align_box_four_by_two (box : polygon) (r : rectangle) :
  align_box box = inr r -> four_by_two r.
Proof.
  unfold align_box.
  destruct (py_min _); simpl; [discriminate|].
  destruct (py_max _); simpl; [discriminate|].
  destruct (py_min _); simpl; [discriminate|].
  destruct (py_max _); simpl; [discriminate|].
  intros H. injection H as <-. split; [reflexivity|].
  repeat constructor.
Qed.

Lemma align_frame_four_by_two (self : Kinetics) (index : Z) store
    (frame_num : Z) (rs : list rectangle) :
  align_frame self index store frame_num = inr rs -> Forall four_by_two rs.
Proof.
  unfold align_frame.
  destruct (py_getitem _ _); simpl; [discriminate|].
  destruct (vid_name_of _); simpl; [discriminate|].
  destruct (dict_getitem store _); simpl; [discriminate|].
  destruct (dict_getitem _ _); simpl; [discriminate|].
  apply map_result_Forall. apply align_box_four_by_two.
Qed.

Lemma torch_Tensor_same (bboxes out : list (list rectangle)) :
  torch_Tensor bboxes = inr out -> out = bboxes.
Proof.
  unfold torch_Tensor. destruct bboxes as [|b bs].
  - intros H. now injection H as <-.
  - destruct (forallb _ _); [|discriminate]. intros H. now injection H as <-.
Qed.

Section FetchReturns.
Context {tensor packed : Type}.
Variable w : world tensor.
Variable to_float_cthw : tensor -> tensor.
Variable spatial_sampling : CfgNode -> bool -> sampling -> tensor -> tensor.
Variable pack_pathway_output : CfgNode -> tensor -> packed.

Local Abbreviation attempt' :=
  (attempt w to_float_cthw spatial_sampling pack_pathway_output).
Local Abbreviation retry' :=
  (retry w to_float_cthw spatial_sampling pack_pathway_output).
Local Abbreviation getitem' :=
  (__getitem__ w to_float_cthw spatial_sampling pack_pathway_output).
Local Abbreviation finish' :=
  (finish to_float_cthw spatial_sampling pack_pathway_output).

Lemma exhausted_raises (self : Kinetics) (lst : option Z) (index : Z) :
  raised (exhausted (packed:=packed) self lst index).
Proof.
  unfold exhausted. destruct (py_getitem _ _); simpl; [exact I|].
  destruct lst; exact I.
Qed.

(** A fetch that returns, returns from a pass. *)
Lemma retry_returned_inv (p : sampling) (it : item packed) (todo : nat) :
  forall (i_try : Z) (lst : option Z) (done : list Z) (self : Kinetics)
         (index : Z),
    returned (retry' p todo i_try lst done self index) = inr it ->
    exists self1 self2 i idx done',
      self1 = with_kpts self (kpts self1)
      /\ attempt' self1 p i idx = (self2, Return it)
      /\ tried (retry' p todo i_try lst done self index) = idx :: done'
      /\ self_after (retry' p todo i_try lst done self index) = self2.
Proof.
  induction todo as [|todo IH]; intros i_try lst done self index; simpl.
  - intros H. pose proof (exhausted_raises self lst index) as Hr.
    rewrite H in Hr. contradiction.
  - pose proof (attempt_frame w to_float_cthw spatial_sampling
                  pack_pathway_output self p i_try index) as Hf.
    destruct (attempt' self p i_try index) as [self' [j | it' | e]] eqn:Ha;
      simpl in *.
    + intros H. destruct (IH _ _ _ _ _ H)
        as (self1 & self2 & i & idx & done' & Hs & Hat & Ht & Hsa).
      exists self1, self2, i, idx, done'. repeat split; auto.
      rewrite Hs at 1. rewrite Hf. reflexivity.
    + intros H. injection H as <-.
      exists self, self', i_try, index, done. repeat split; auto.
      now rewrite with_kpts_same.
    + discriminate.
Qed.

Lemma keeps_or_draws_not_return {A} (self : Kinetics) (index : Z) (a : A) :
  ~ keeps_or_draws self index (Return a).
Proof. auto. Qed.

(** A pass that returns went through the success path. *)
Lemma attempt_return_inv (self1 self2 : Kinetics) (p : sampling)
    (i_try index : Z) (it : item packed) :
  attempt' self1 p i_try index = (self2, Return it) ->
  exists path frames time_idx tdiff bbox_index store,
    py_getitem (_path_to_videos self1) index = inr path
    /\ get_video_container w i_try path = ContainerOk
    /\ decode w i_try index = Decoded frames time_idx tdiff bbox_index
    /\ decode_failed frames = false
    /\ load_kpts w self1 index = inr (self2, store)
    /\ finish' self2 p index store
         (match frames with Some l => l | None => [] end) time_idx bbox_index
       = inr it.
Proof.
  unfold attempt.
  destruct (py_getitem (_path_to_videos self1) index) as [e | path];
    [discriminate|].
  pose proof (after_container_failure_keeps_or_draws w (A:=item packed)
                self1 i_try index) as Hc.
  destruct (get_video_container w i_try path) eqn:Ec.
  - intros H. injection H as _ H. rewrite H in Hc. contradiction.
  - intros H. injection H as _ H. rewrite H in Hc. contradiction.
  - destruct (video_meta_arg self1 index); [discriminate|].
    destruct (decode w i_try index) as [|frames ti td bi] eqn:Ed; [discriminate|].
    destruct (load_kpts w self1 index) as [e | [self' store]] eqn:El;
      [discriminate|].
    destruct (decode_failed frames) eqn:Ef.
    + pose proof (after_decode_failure_keeps_or_draws w (A:=item packed)
                    self' i_try index) as Hd.
      intros H. injection H as _ H. rewrite H in Hd. contradiction.
    + destruct (finish' self' p index store _ ti bi) as [e | it'] eqn:Efin;
        [discriminate|].
      intros H. injection H as <- <-.
      exists path, frames, ti, td, bi, store. repeat split; auto.
Qed.

(** What the success path puts in the item. *)
Lemma finish_inv (self : Kinetics) (p : sampling) (index : Z) store frames
    time_idx bbox_index (it : item packed) :
  finish' self p index store frames time_idx bbox_index = inr it ->
  exists frame_nums l,
    py_getitem bbox_index 0 = inr frame_nums
    /\ map_result (align_frame self index store) frame_nums
       = inr (bboxes_out it)
    /\ py_getitem (_labels self) index = inr l
    /\ label_out it = handed_label self l
    /\ index_out it = index
    /\ aux_out it = ∅.
Proof.
  unfold finish.
  destruct (py_getitem bbox_index 0) as [e | frame_nums]; simpl;
    [discriminate|].
  destruct (map_result _ frame_nums) as [e | bboxes] eqn:Eb; simpl;
    [discriminate|].
  destruct (py_getitem (_labels self) index) as [e | l]; simpl; [discriminate|].
  destruct (py_getitem frames 0) as [e | f0]; simpl; [discriminate|].
  destruct f0 as [f|]; simpl; [|discriminate].
  destruct (py_getitem time_idx 0) as [e | t]; simpl; [discriminate|].
  destruct (torch_Tensor bboxes) as [e | tb] eqn:Et; simpl; [discriminate|].
  intros H. injection H as <-. simpl.
  apply torch_Tensor_same in Et. subst tb.
  exists frame_nums, l. repeat split; auto.
Qed.

(** X3: a fetch that returns hands out the index of its last pass, the
    stored label of that index (replaced by 1 when NUM_CLASSES is 2 and
    the label is positive, so at most 1 in that case), an empty
    auxiliary map, and leaves the side file of that index in the cache. *)
Theorem returned_item_index_label (self : Kinetics) (index : Z)
    (it : item packed) :
  returned (getitem' self index) = inr it ->
  (exists rest, tried (getitem' self index) = index_out it :: rest)
  /\ (exists l, py_getitem (_labels self) (index_out it) = inr l
                /\ label_out it = handed_label self l
                /\ (NUM_CLASSES (MODEL (cfg self)) = 2 -> label_out it <= 1))
  /\ aux_out it = ∅
  /\ is_Some (kpts (self_after (getitem' self index)) !! index_out it).
Proof.
  unfold __getitem__.
  destruct (sampling_params self index) as [e | p]; [discriminate|].
  intros H.
  destruct (retry_returned_inv _ _ _ _ _ _ _ _ H)
    as (self1 & self2 & i & idx & done' & Hs & Ha & Ht & Hsa).
  destruct (attempt_return_inv _ _ _ _ _ _ Ha)
    as (path & frames & ti & td & bi & store & _ & _ & _ & _ & Hl & Hfin).
  destruct (finish_inv _ _ _ _ _ _ _ _ Hfin)
    as (frame_nums & l & _ & _ & Hlab & Hout & Hidx & Haux).
  destruct (load_kpts_frame _ _ _ _ _ Hl) as [Hs2 Hk].
  rewrite Ht, Hsa, Hidx.
  split; [eauto|]. split; [|split; [exact Haux | rewrite Hk; eauto]].
  exists l. split; [|split].
  - rewrite <- Hlab. rewrite Hs2, Hs. reflexivity.
  - rewrite Hout. unfold handed_label. rewrite Hs2, Hs. reflexivity.
  - intros Hn. rewrite Hout. unfold handed_label.
    rewrite Hs2, Hs. simpl. rewrite Hn. simpl.
    destruct (0 <? l) eqn:E; lia.
Qed.

Lemma map_result_ext {A B} (f g : A -> result B) (l : list A) :
  (forall a, f a = g a) -> map_result f l = map_result g l.
Proof.
  intros Hfg. induction l as [|a l IH]; simpl; [reflexivity|].
  now rewrite Hfg, IH.
Qed.

Lemma align_frame_paths (a b : Kinetics) (index : Z) store (frame_num : Z) :
  _path_to_videos a = _path_to_videos b ->
  align_frame a index store frame_num = align_frame b index store frame_num.
Proof. intros H. unfold align_frame. now rewrite H. Qed.

(** A fetch that returns, returns from the pass whose number is the
    number of passes made before it. *)
Lemma retry_returned_pass (p : sampling) (it : item packed) (todo : nat) :
  forall (i_try : Z) (lst : option Z) (done : list Z) (self : Kinetics)
         (index : Z),
    returned (retry' p todo i_try lst done self index) = inr it ->
    exists self1 self2 idx done' (k : nat),
      self1 = with_kpts self (kpts self1)
      /\ attempt' self1 p (i_try + Z.of_nat k) idx = (self2, Return it)
      /\ tried (retry' p todo i_try lst done self index) = idx :: done'
      /\ length done' = (length done + k)%nat
      /\ self_after (retry' p todo i_try lst done self index) = self2.
Proof.
  induction todo as [|todo IH]; intros i_try lst done self index; simpl.
  - intros H. pose proof (exhausted_raises self lst index) as Hr.
    rewrite H in Hr. contradiction.
  - pose proof (attempt_frame w to_float_cthw spatial_sampling
                  pack_pathway_output self p i_try index) as Hf.
    destruct (attempt' self p i_try index) as [self' [j | it' | e]] eqn:Ha;
      simpl in *.
    + intros H. destruct (IH _ _ _ _ _ H)
        as (self1 & self2 & idx & done' & k & Hs & Hat & Ht & Hlen & Hsa).
      exists self1, self2, idx, done', (S k).
      replace (i_try + Z.of_nat (S k)) with (i_try + 1 + Z.of_nat k) by lia.
      repeat split; auto.
      * rewrite Hs at 1. rewrite Hf. reflexivity.
      * rewrite Hlen. simpl. lia.
    + intros H. injection H as <-.
      exists self, self', index, done, O.
      replace (i_try + Z.of_nat 0) with i_try by lia.
      repeat split; auto.
      now rewrite with_kpts_same.
    + discriminate.
Qed.

(** X4: the boxes of a returned item are the boxes of the returning
    pass: that pass is the last one made, its decoder answer passed the
    validation, and the item holds, for each frame number of that
    answer, the rectangles aligned from the cached side file of the
    returned index, one list per frame number; every box is four
    corners of two coordinates. *)
Theorem returned_item_boxes (self : Kinetics) (index : Z) (it : item packed) :
  returned (getitem' self index) = inr it ->
  Forall (Forall four_by_two) (bboxes_out it)
  /\ exists frames time_idx tdiff bbox_index frame_nums store,
       decode w (Z.of_nat (attempts (getitem' self index)) - 1) (index_out it)
       = Decoded frames time_idx tdiff bbox_index
       /\ decode_failed frames = false
       /\ py_getitem bbox_index 0 = inr frame_nums
       /\ kpts (self_after (getitem' self index)) !! index_out it = Some store
       /\ map_result (align_frame self (index_out it) store) frame_nums
          = inr (bboxes_out it)
       /\ length (bboxes_out it) = length frame_nums.
Proof.
  unfold attempts, __getitem__.
  destruct (sampling_params self index) as [e | p]; [discriminate|].
  intros H.
  destruct (retry_returned_pass _ _ _ _ _ _ _ _ H)
    as (self1 & self2 & idx & done' & k & Hs & Ha & Ht & Hlen & Hsa).
  destruct (attempt_return_inv _ _ _ _ _ _ Ha)
    as (path & frames & ti & td & bi & store & _ & _ & Hd & Hv & Hl & Hfin).
  destruct (finish_inv _ _ _ _ _ _ _ _ Hfin)
    as (frame_nums & l & Hb & Hmap & _ & _ & Hidx & _).
  destruct (load_kpts_frame _ _ _ _ _ Hl) as [Hs2 Hk].
  assert (Hpaths : _path_to_videos self2 = _path_to_videos self)
    by (rewrite Hs2, Hs; reflexivity).
  rewrite (map_result_ext _ (align_frame self idx store)) in Hmap
    by (intros a; now apply align_frame_paths).
  split.
  - eapply map_result_Forall; [|exact Hmap].
    intros a b. apply align_frame_four_by_two.
  - exists frames, ti, td, bi, frame_nums, store.
    rewrite Ht, Hsa, Hidx. simpl length in *. rewrite Hlen. simpl.
    replace (Z.of_nat (S k) - 1) with (0 + Z.of_nat k) by lia.
    repeat split; auto. eapply map_result_length; eauto.
Qed.

End FetchReturns.

Lemma returned_item_index_label_witness :
  (exists rest,
     tried (__getitem__ (triangle_world 4) unit_float unit_sampling unit_pack
              (one_video "train" 100) 0) = index_out triangle_item :: rest)
  /\ (exists l,
        py_getitem (_labels (one_video "train" 100)) (index_out triangle_item)
        = inr l
        /\ label_out triangle_item = handed_label (one_video "train" 100) l
        /\ (NUM_CLASSES (MODEL (cfg (one_video "train" 100))) = 2 ->
            label_out triangle_item <= 1))
  /\ aux_out triangle_item = ∅
  /\ is_Some (kpts (self_after
                      (__getitem__ (triangle_world 4) unit_float unit_sampling
                         unit_pack (one_video "train" 100) 0))
              !! index_out triangle_item).
Proof.
  apply (returned_item_index_label (triangle_world 4) unit_float unit_sampling
           unit_pack (one_video "train" 100) 0 triangle_item).
  vm_compute. reflexivity.
Defined.

Lemma returned_item_boxes_witness :
  Forall (Forall four_by_two) (bboxes_out triangle_item)
  /\ exists frames time_idx tdiff bbox_index frame_nums store,
       decode (triangle_world 4)
         (Z.of_nat (attempts (__getitem__ (triangle_world 4) unit_float
                                unit_sampling unit_pack
                                (one_video "train" 100) 0)) - 1)
         (index_out triangle_item)
       = Decoded frames time_idx tdiff bbox_index
       /\ decode_failed frames = false
       /\ py_getitem bbox_index 0 = inr frame_nums
       /\ kpts (self_after (__getitem__ (triangle_world 4) unit_float
                              unit_sampling unit_pack
                              (one_video "train" 100) 0))
          !! index_out triangle_item = Some store
       /\ map_result
            (align_frame (one_video "train" 100) (index_out triangle_item) store)
            frame_nums
          = inr (bboxes_out triangle_item)
       /\ length (bboxes_out triangle_item) = length frame_nums.
Proof.
  apply (returned_item_boxes (triangle_world 4) unit_float unit_sampling
           unit_pack (one_video "train" 100) 0 triangle_item).
  vm_compute. reflexivity.
Defined.

Example boxes_of_the_second_pass :
  tried (__getitem__ second_pass_world unit_float unit_sampling unit_pack
           (one_video "test" 3) 0) = [0; 0]
  /\ returned (__getitem__ second_pass_world unit_float unit_sampling unit_pack
                 (one_video "test" 3) 0)
     = ret {| frames_out := tt; label_out := 1; index_out := 0;
              time_idx_out := [[0; 8]]; aux_out := ∅;
              bboxes_out := [[]; []; []] |}
  /\ decode second_pass_world 1 0
     = Decoded (Some [Some tt]) [[0; 8]] false [[7; 8; 9]].
Proof. repeat split; vm_compute; reflexivity. Qed.

Lemma py_getitem_out_of_range {A} (l : list A) (i : Z) :
  i < - Z.of_nat (length l) \/ Z.of_nat (length l) <= i ->
  py_getitem l i = inl IndexError.
Proof.
  intros Hi. unfold py_getitem.
  destruct (i <? 0) eqn:E.
  - destruct ((i + Z.of_nat (length l) <? 0)
              || (Z.of_nat (length l) <=? i + Z.of_nat (length l))) eqn:E1;
      [reflexivity|].
    apply orb_false_iff in E1 as [E1 E2]. lia.
  - destruct ((i <? 0) || (Z.of_nat (length l) <=? i)) eqn:E1; [reflexivity|].
    apply orb_false_iff in E1 as [E1 E2]. lia.
Qed.

Section FetchEdges.
Context {tensor packed : Type}.
Variable w : world tensor.
Variable to_float_cthw : tensor -> tensor.
Variable spatial_sampling : CfgNode -> bool -> sampling -> tensor -> tensor.
Variable pack_pathway_output : CfgNode -> tensor -> packed.

Local Abbreviation attempt' :=
  (attempt w to_float_cthw spatial_sampling pack_pathway_output).
Local Abbreviation retry' :=
  (retry w to_float_cthw spatial_sampling pack_pathway_output).
Local Abbreviation getitem' :=
  (__getitem__ w to_float_cthw spatial_sampling pack_pathway_output).

(** X5: with a retry budget of zero or less a fetch makes no pass and
    consults no collaborator; its else clause then reads the loop
    variable that was never bound, so for an index of the dataset it
    raises UnboundLocalError, not the exhaustion error, and the object
    is unchanged. *)
Theorem no_budget_unbound_variable (self : Kinetics) (p : sampling)
    (index : Z) (path : string) :
  _num_retries self <= 0 ->
  sampling_params self index = inr p ->
  py_getitem (_path_to_videos self) index = inr path ->
  getitem' self index
  = {| tried := []; self_after := self;
       returned := raise (UnboundLocalError "i_try") |}.
Proof.
  intros Hn Hp Hpath. unfold __getitem__. rewrite Hp.
  replace (Z.to_nat (_num_retries self)) with O by lia.
  simpl. unfold exhausted. rewrite Hpath. reflexivity.
Qed.

(** X6: a fetch called with an index outside [-num_videos, num_videos)
    raises IndexError: in train and val modes on its first pass, before
    any container is asked for (the handler of the failed acquisition
    reads the same path again); in test mode already while selecting the
    sampling parameters, when the stored indices are as many as the
    paths. *)
Theorem index_out_of_range (self : Kinetics) (index : Z) :
  index < - num_videos self \/ num_videos self <= index ->
  1 <= _num_retries self ->
  (forall p, sampling_params self index = inr p ->
     getitem' self index
     = {| tried := [index]; self_after := self; returned := raise IndexError |})
  /\ (mode self = "test" ->
      length (_spatial_temporal_idx self) = length (_path_to_videos self) ->
      getitem' self index
      = {| tried := []; self_after := self; returned := raise IndexError |}).
Proof.
  intros Hi Hn. split.
  - intros p Hp. unfold __getitem__. rewrite Hp.
    destruct (Z.to_nat (_num_retries self)) as [|todo] eqn:En; [lia|].
    simpl. unfold attempt.
    now rewrite (py_getitem_out_of_range _ _ Hi).
  - intros Hm Hlen. unfold __getitem__, sampling_params. rewrite Hm.
    destruct str_in_test_not_train as [-> ->].
    rewrite py_getitem_out_of_range; [reflexivity|].
    rewrite Hlen. exact Hi.
Qed.

Lemma load_kpts_keeps (self self' : Kinetics) (index : Z) store :
  load_kpts w self index = inr (self', store) ->
  forall j s, kpts self !! j = Some s -> kpts self' !! j = Some s.
Proof.
  unfold load_kpts. destruct (kpts self !! index) eqn:E.
  - intros H. injection H as <- <-. auto.
  - destruct (py_getitem (_path_to_videos self) index); simpl; [discriminate|].
    destruct (pickle_file w (kpts_path s)); [|discriminate].
    intros H. injection H as <- <-. intros j s' Hj. simpl.
    destruct (decide (index = j)) as [-> | Hne]; [congruence|].
    now rewrite lookup_insert_ne.
Qed.

Lemma attempt_keeps_cache (self : Kinetics) (p : sampling) (i_try index : Z) :
  forall j s, kpts self !! j = Some s ->
              kpts (fst (attempt' self p i_try index)) !! j = Some s.
Proof.
  intros j s Hj. unfold attempt.
  destruct (py_getitem (_path_to_videos self) index); [exact Hj|].
  destruct (get_video_container w i_try s0); try exact Hj.
  destruct (video_meta_arg self index); [exact Hj|].
  destruct (decode w i_try index); [exact Hj|].
  destruct (load_kpts w self index) as [e | [self' store]] eqn:El; [exact Hj|].
  pose proof (load_kpts_keeps _ _ _ _ El j s Hj) as Hk.
  destruct (decode_failed frames); [exact Hk|].
  destruct (finish _ _ _ _ _ _ _ _ _ _); exact Hk.
Qed.

Lemma retry_keeps_cache (p : sampling) (todo : nat) :
  forall (i_try : Z) (lst : option Z) (done : list Z) (self : Kinetics)
         (index : Z) j s,
    kpts self !! j = Some s ->
    kpts (self_after (retry' p todo i_try lst done self index)) !! j = Some s.
Proof.
  induction todo as [|todo IH]; intros i_try lst done self index j s Hj; simpl;
    [exact Hj|].
  pose proof (attempt_keeps_cache self p i_try index j s Hj) as Hk.
  destruct (attempt' self p i_try index) as [self' [j' | it | e]]; simpl in *;
    auto.
Qed.

Lemma getitem_keeps_cache (self : Kinetics) (index : Z) j s :
  kpts self !! j = Some s ->
  kpts (self_after (getitem' self index)) !! j = Some s.
Proof.
  intros Hj. unfold __getitem__.
  destruct (sampling_params self index); [exact Hj|].
  now apply retry_keeps_cache.
Qed.

End FetchEdges.

Lemma no_budget_unbound_variable_witness :
  __getitem__ no_frames_world unit_float unit_sampling unit_pack
    (two_videos "val" (-3)) 1
  = {| tried := []; self_after := two_videos "val" (-3);
       returned := raise (UnboundLocalError "i_try") |}.
Proof.
  apply (no_budget_unbound_variable no_frames_world unit_float unit_sampling
           unit_pack (two_videos "val" (-3)) fixed_256 1 "videos/b.mp4").
  - simpl. lia.
  - reflexivity.
  - reflexivity.
Defined.

Lemma index_out_of_range_witness :
  (forall p, sampling_params (two_videos "train" 16) 2 = inr p ->
     __getitem__ no_frames_world unit_float unit_sampling unit_pack
       (two_videos "train" 16) 2
     = {| tried := [2]; self_after := two_videos "train" 16;
          returned := raise IndexError |})
  /\ (mode (two_videos "train" 16) = "test" ->
      length (_spatial_temporal_idx (two_videos "train" 16))
      = length (_path_to_videos (two_videos "train" 16)) ->
      __getitem__ no_frames_world unit_float unit_sampling unit_pack
        (two_videos "train" 16) 2
      = {| tried := []; self_after := two_videos "train" 16;
           returned := raise IndexError |}).
Proof.
  apply (index_out_of_range no_frames_world unit_float unit_sampling unit_pack
           (two_videos "train" 16) 2).
  - right. unfold num_videos. simpl. lia.
  - simpl. lia.
Defined.

Example negative_index_counts_from_the_end :
  tried (__getitem__ no_container_world unit_float unit_sampling unit_pack
           (two_videos "test" 2) (-1)) = [-1; -1]
  /\ returned (__getitem__ no_container_world unit_float unit_sampling unit_pack
                 (two_videos "test" 2) (-1))
     = raise (RuntimeError fetch_failed [PInt (-1); PStr "videos/b.mp4"; PInt 1])
  /\ returned (__getitem__ no_container_world unit_float unit_sampling unit_pack
                 (two_videos "test" 2) (-3))
     = raise IndexError.
Proof. repeat split; vm_compute; reflexivity. Qed.

Section CacheKept.
Context {tensor packed : Type}.
Variable to_float_cthw : tensor -> tensor.
Variable spatial_sampling : CfgNode -> bool -> sampling -> tensor -> tensor.
Variable pack_pathway_output : CfgNode -> tensor -> packed.

Local Abbreviation run_ops' :=
  (run_ops to_float_cthw spatial_sampling pack_pathway_output).

(** X7: a side file that is in the cache stays there, with the same
    content, through every later fetch, epoch setting and length query:
    the cache is never evicted and never reloaded. *)
Theorem side_file_cache_kept (ops : list operation) :
  forall (self : Kinetics) (j : Z) store,
    kpts self !! j = Some store ->
    kpts (run_ops' self ops) !! j = Some store.
Proof.
  induction ops as [|op ops IH]; intros self j store Hj; simpl; [exact Hj|].
  apply IH. destruct op as [w index | e | |]; simpl; auto.
  now apply getitem_keeps_cache.
Qed.

End CacheKept.

Lemma side_file_cache_kept_witness :
  kpts (run_ops unit_float unit_sampling unit_pack cached_video
          [OpGetItem no_frames_world 0; OpSetEpochNum 3%Q;
           OpGetItem (triangle_world 5) 0; OpLen]) !! 0
  = Some triangle_store.
Proof.
  apply (side_file_cache_kept unit_float unit_sampling unit_pack
           [OpGetItem no_frames_world 0; OpSetEpochNum 3%Q;
            OpGetItem (triangle_world 5) 0; OpLen]
           cached_video 0 triangle_store).
  vm_compute. reflexivity.
Defined.

(* ===================================================================== *)
(** ** Further properties of the construction *)
(* ===================================================================== *)

Lemma append_entries_meta (es : list (string * Z)) :
  forall (self : Kinetics) (k j : Z),
    _video_meta (append_entries self k es) !! j
    = if (k <=? j) && (j <? k + Z.of_nat (length es)) then Some ∅
      else _video_meta self !! j.
Proof.
  induction es as [|e es IH]; intros self k j; simpl append_entries.
  - simpl length. destruct ((k <=? j) && (j <? k + Z.of_nat 0)) eqn:E;
      [bools; exfalso; lia | reflexivity].
  - rewrite IH. simpl _video_meta.
    destruct ((k + 1 <=? j) && (j <? k + 1 + Z.of_nat (length es))) eqn:E1;
      destruct ((k <=? j) && (j <? k + Z.of_nat (length (e :: es)))) eqn:E2;
      simpl length in *; bools; try reflexivity; try (exfalso; lia).
    + assert (j = k) by lia. subst j. apply lookup_insert_eq.
    + apply lookup_insert_ne. lia.
    + apply lookup_insert_ne. lia.
Qed.

Lemma append_entries_meta_size (es : list (string * Z)) :
  forall (self : Kinetics) (k : Z),
    (forall j, k <= j -> _video_meta self !! j = None) ->
    size (_video_meta (append_entries self k es))
    = (size (_video_meta self) + length es)%nat.
Proof.
  induction es as [|e es IH]; intros self k Hfresh; simpl append_entries.
  - simpl. lia.
  - rewrite IH.
    + simpl _video_meta. rewrite map_size_insert_None by (apply Hfresh; lia).
      simpl. lia.
    + intros j Hj. simpl _video_meta. rewrite lookup_insert_ne by lia.
      apply Hfresh. lia.
Qed.

Lemma append_entries_flags (es : list (string * Z)) :
  forall (self : Kinetics) (k : Z),
    use_chunk_loading (append_entries self k es) = use_chunk_loading self
    /\ kpts (append_entries self k es) = kpts self.
Proof.
  induction es as [|e es IH]; intros self k; simpl; [auto|].
  destruct (IH (append_entry self k (fst e) (snd e)) (k + 1)) as [-> ->]. auto.
Qed.

Lemma read_rows_flags {tensor} (w : world tensor) (self self1 : Kinetics)
    (lines rows : list string) :
  read_rows w self lines = inr (self1, rows) ->
  _video_meta self1 = _video_meta self
  /\ use_chunk_loading self1 = use_chunk_loading self
  /\ kpts self1 = kpts self.
Proof.
  unfold read_rows. destruct (use_chunk_loading self) eqn:Eu.
  - destruct (_get_chunk w (manifest_path self) (recursion_limit w) 0 (skip_rows self))
      as [[skip reads] [e | r]]; simpl; [discriminate|].
    intros H. injection H as <- <-. simpl. auto.
  - intros H. injection H as <- <-. auto.
Qed.

(** What [__init__] returns, in terms of the rows it parsed. *)
Lemma init_inv {tensor} (w : world tensor) (c : CfgNode) (m : string) (n : Z)
    (ds : Kinetics) :
  __init__ w c m n = inr ds ->
  str_in m ["train"; "val"; "test"] = true
  /\ exists lines self1 rows es,
       manifest w (manifest_path (blank c m n)) = Some lines
       /\ read_rows w (reset_loader (blank c m n)) lines = inr (self1, rows)
       /\ map_result (parse_row c (manifest_path (blank c m n))) rows = inr es
       /\ ds = with_kpts (append_entries self1 0 es) ∅.
Proof.
  unfold __init__.
  destruct (str_in m ["train"; "val"; "test"]) eqn:Em; simpl; [|discriminate].
  destruct (_construct_loader w (blank c m n)) as [e | ds0] eqn:Hc;
    [discriminate|].
  simpl. intros H. injection H as <-. split; [reflexivity|].
  destruct (construct_inv _ _ _ Hc) as (lines & self1 & rows & es & Hm & Hr & Hes & ->).
  exists lines, self1, rows, es. auto.
Qed.

(** X8: after construction the metadata map has exactly the keys
    0 .. num_videos - 1, each with an empty entry.  So the metadata
    argument of the decoder is the empty map for every index of the
    dataset, while a negative index, which the path list accepts by
    counting from the end, is a missing key: the pass raises KeyError as
    soon as its container opens. *)
Theorem video_meta_keys {tensor packed : Type} (w : world tensor)
    (c : CfgNode) (m : string) (n : Z) (ds : Kinetics) :
  __init__ w c m n = inr ds ->
  (forall j, _video_meta ds !! j
             = if (0 <=? j) && (j <? num_videos ds) then Some ∅ else None)
  /\ (forall index, in_dataset ds index -> video_meta_arg ds index = inr ∅)
  /\ (forall (w' : world tensor) (f1 : tensor -> tensor)
             (f2 : CfgNode -> bool -> sampling -> tensor -> tensor)
             (f3 : CfgNode -> tensor -> packed) (p : sampling)
             (i_try index : Z) (path : string),
        - num_videos ds <= index < 0 ->
        num_videos ds < 5000000 ->
        py_getitem (_path_to_videos ds) index = inr path ->
        get_video_container w' i_try path = ContainerOk ->
        attempt w' f1 f2 f3 ds p i_try index
        = (ds, Raise (KeyError (PInt index)))).
Proof.
  intros Hinit.
  destruct (init_inv _ _ _ _ _ Hinit)
    as (_ & lines & self1 & rows & es & Hm & Hr & Hes & ->).
  destruct (read_rows_flags _ _ _ _ _ Hr) as (Emeta & _ & _).
  destruct (read_rows_lists _ _ _ _ _ Hr) as (Ep & _).
  assert (Hnum : num_videos (with_kpts (append_entries self1 0 es) ∅)
                 = Z.of_nat (length es)).
  { unfold num_videos. simpl.
    destruct (append_entries_fields es self1 0) as (-> & _).
    rewrite Ep. simpl. now rewrite length_map. }
  assert (Hkeys : forall j,
            _video_meta (with_kpts (append_entries self1 0 es) ∅) !! j
            = if (0 <=? j) && (j <? num_videos (with_kpts (append_entries self1 0 es) ∅))
              then Some ∅ else None).
  { intros j. rewrite Hnum. simpl _video_meta. rewrite append_entries_meta.
    rewrite Emeta. simpl.
    destruct ((0 <=? j) && (j <? 0 + Z.of_nat (length es))) eqn:E1;
      destruct ((0 <=? j) && (j <? Z.of_nat (length es))) eqn:E2;
      try reflexivity; bools; exfalso; lia. }
  assert (Hsize : Z.of_nat (size (_video_meta (with_kpts (append_entries self1 0 es) ∅)))
                  = num_videos (with_kpts (append_entries self1 0 es) ∅)).
  { rewrite Hnum. simpl _video_meta. rewrite append_entries_meta_size.
    - rewrite Emeta. simpl. rewrite map_size_empty. lia.
    - intros j _. rewrite Emeta. reflexivity. }
  split; [exact Hkeys|]. split.
  - intros index Hi. unfold video_meta_arg. rewrite (Hkeys index).
    unfold in_dataset in Hi.
    destruct (_ <? 5000000); [|reflexivity].
    destruct ((0 <=? index) && (index <? _)) eqn:E;
      [reflexivity | bools; exfalso; lia].
  - intros w' f1 f2 f3 p i_try index path Hi Hbig Hp Hc.
    unfold attempt. rewrite Hp, Hc.
    unfold video_meta_arg. rewrite Hsize, (Hkeys index).
    destruct (_ <? 5000000) eqn:E5; [|bools; exfalso; lia].
    destruct ((0 <=? index) && (index <? _)) eqn:E;
      [bools; exfalso; lia | reflexivity].
Qed.

Lemma video_meta_keys_witness :
  (forall j, _video_meta one_line_dataset !! j
             = if (0 <=? j) && (j <? num_videos one_line_dataset)
               then Some ∅ else None)
  /\ (forall index, in_dataset one_line_dataset index ->
                    video_meta_arg one_line_dataset index = inr ∅)
  /\ (forall (w' : world unit) (f1 : unit -> unit)
             (f2 : CfgNode -> bool -> sampling -> unit -> unit)
             (f3 : CfgNode -> unit -> unit) (p : sampling)
             (i_try index : Z) (path : string),
        - num_videos one_line_dataset <= index < 0 ->
        num_videos one_line_dataset < 5000000 ->
        py_getitem (_path_to_videos one_line_dataset) index = inr path ->
        get_video_container w' i_try path = ContainerOk ->
        attempt w' f1 f2 f3 one_line_dataset p i_try index
        = (one_line_dataset, Raise (KeyError (PInt index)))).
Proof.
  apply (video_meta_keys (packed:=unit) one_line_world one_line_cfg "val" 100
           one_line_dataset).
  reflexivity.
Defined.

Example negative_index_key_error :
  returned (__getitem__ no_frames_world unit_float unit_sampling unit_pack
              one_line_dataset (-1))
  = raise (KeyError (PInt (-1))).
Proof. vm_compute. reflexivity. Qed.

Lemma str_in_three (m : string) :
  str_in m ["train"; "val"; "test"] = true ->
  m = "train" \/ m = "val" \/ m = "test".
Proof.
  unfold str_in. simpl. intros H.
  apply orb_true_iff in H as [H | H]; [left; now apply String.eqb_eq|].
  apply orb_true_iff in H as [H | H]; [right; left; now apply String.eqb_eq|].
  apply orb_true_iff in H as [H | H]; [right; right; now apply String.eqb_eq|].
  discriminate.
Qed.

Lemma py_getitem_error {A} (l : list A) (i : Z) (e : exn) :
  py_getitem l i = inl e -> e = IndexError.
Proof.
  unfold py_getitem.
  destruct (_ || _); [intros H; now injection H as <-|].
  destruct (nth_error _ _); [discriminate|]. intros H. now injection H as <-.
Qed.

Lemma py_floordiv_error (a b : Z) (e : exn) :
  py_floordiv a b = inl e -> e = ZeroDivisionError.
Proof.
  unfold py_floordiv. destruct (b =? 0); [|discriminate].
  intros H. now injection H as <-.
Qed.

Lemma py_mod_error (a b : Z) (e : exn) :
  py_mod a b = inl e -> e = ZeroDivisionError.
Proof.
  unfold py_mod. destruct (b =? 0); [|discriminate].
  intros H. now injection H as <-.
Qed.

Lemma sampling_params_errors (self : Kinetics) (index : Z) (e : exn) :
  mode self = "train" \/ mode self = "val" \/ mode self = "test" ->
  sampling_params self index = inl e -> selection_error e.
Proof.
  intros Hm. unfold sampling_params, selection_error.
  assert (Htv : forall e',
    (do mn <- py_getitem (TRAIN_JITTER_SCALES (DATA (cfg self))) 0;
     do mx <- py_getitem (TRAIN_JITTER_SCALES (DATA (cfg self))) 1;
     if negb (mn =? mx) then raise (AssertionError "" [])
     else if negb (mx =? 256) then raise (AssertionError "" [])
     else ret {| temporal_sample_index := -1; spatial_sample_index := -1;
                 min_scale := mn; max_scale := mx; crop_size := 256 |})
    = inl e' ->
    e' = IndexError \/ e' = ZeroDivisionError
    \/ exists template args, e' = AssertionError template args).
  { intros e'.
    destruct (py_getitem _ 0) as [e0 | mn] eqn:E0; simpl.
    { intros H. injection H as <-. left. eapply py_getitem_error; eauto. }
    destruct (py_getitem _ 1) as [e1 | mx] eqn:E1; simpl.
    { intros H. injection H as <-. left. eapply py_getitem_error; eauto. }
    destruct (negb (mn =? mx)); [intros H; injection H as <-; eauto|].
    destruct (negb (mx =? 256)); [intros H; injection H as <-; eauto|].
    discriminate. }
  destruct Hm as [Hm | [Hm | Hm]]; rewrite Hm.
  - exact (Htv e).
  - exact (Htv e).
  - destruct str_in_test_not_train as [-> ->].
    destruct (py_getitem (_spatial_temporal_idx self) index) as [e0 | st] eqn:E0;
      simpl.
    { intros H. injection H as <-. left. eapply py_getitem_error; eauto. }
    destruct (py_floordiv st _) as [e1 | t] eqn:E1; simpl.
    { intros H. injection H as <-. right. left. eapply py_floordiv_error; eauto. }
    destruct (1 <? NUM_SPATIAL_CROPS (TEST (cfg self))).
    + simpl.
      destruct (py_mod st _) as [e2 | s] eqn:E2; simpl.
      { intros H. injection H as <-. right. left. eapply py_mod_error; eauto. }
      destruct (negb _); [intros H; injection H as <-; eauto | discriminate].
    + simpl.
      destruct (py_getitem _ 0) as [e2 | j] eqn:E2; simpl.
      { intros H. injection H as <-. left. eapply py_getitem_error; eauto. }
      destruct (negb _); [intros H; injection H as <-; eauto | discriminate].
Qed.

(** X9: the constructor rejects every mode other than train, val and
    test before it looks at the manifest; an object it returns has the
    mode, configuration and retry budget it was given and an empty
    side-file cache, so the selection of the sampling parameters never
    reaches its unsupported-mode branch: it can raise only IndexError,
    ZeroDivisionError or AssertionError. *)
Theorem constructor_mode {tensor} (w : world tensor) (c : CfgNode)
    (m : string) (n : Z) :
  (m <> "train" -> m <> "val" -> m <> "test" ->
   __init__ w c m n
   = raise (AssertionError "Split '{}' not supported for Kinetics" [PStr m]))
  /\ (forall ds, __init__ w c m n = inr ds ->
        (m = "train" \/ m = "val" \/ m = "test")
        /\ mode ds = m /\ cfg ds = c /\ _num_retries ds = n /\ kpts ds = ∅
        /\ forall index e,
             sampling_params ds index = inl e -> selection_error e).
Proof.
  split.
  - intros H1 H2 H3. unfold __init__, str_in. simpl.
    apply String.eqb_neq in H1, H2, H3. rewrite H1, H2, H3. reflexivity.
  - intros ds Hinit.
    destruct (init_inv _ _ _ _ _ Hinit)
      as (Hmode & lines & self1 & rows & es & Hm & Hr & Hes & ->).
    apply str_in_three in Hmode.
    destruct (read_rows_lists _ _ _ _ _ Hr) as (_ & _ & _ & Ec & Emode & En).
    destruct (append_entries_fields es self1 0) as (_ & _ & _ & Ec' & Em' & En').
    assert (Hmd : mode (with_kpts (append_entries self1 0 es) ∅) = m)
      by (simpl; rewrite Em', Emode; reflexivity).
    split; [exact Hmode|]. split; [exact Hmd|].
    split; [simpl; rewrite Ec', Ec; reflexivity|].
    split; [simpl; rewrite En', En; reflexivity|].
    split; [reflexivity|].
    intros index e. apply sampling_params_errors. now rewrite Hmd.
Qed.

Lemma constructor_mode_witness :
  __init__ one_line_world one_line_cfg "eval" 100
  = raise (AssertionError "Split '{}' not supported for Kinetics" [PStr "eval"]).
Proof.
  apply (proj1 (constructor_mode one_line_world one_line_cfg "eval" 100));
    discriminate.
Defined.

Example constructed_one_line :
  __init__ one_line_world one_line_cfg "val" 100 = inr one_line_dataset.
Proof. reflexivity. Qed.

Lemma get_chunk_no_chunk {tensor} (w : world tensor) (path : string) (k : nat) :
  forall (frames reads : nat) (skip : Z),
    (k < frames)%nat ->
    (forall j, (j < k)%nat ->
       read_csv w path (reads + j) (skip_at skip j) = CsvRaises) ->
    read_csv w path (reads + k) (skip_at skip k) = CsvNoChunk ->
    _get_chunk w path frames reads skip
    = (skip_at skip k, (reads + k + 1)%nat, raise (UnboundLocalError "chunk")).
Proof.
  induction k as [|k IH]; intros frames reads skip Hlt Hrej Hno.
  - destruct frames as [|frames]; [lia|]. simpl.
    rewrite Nat.add_0_r in Hno. simpl in Hno. rewrite Hno.
    do 2 f_equal. lia.
  - destruct frames as [|frames]; [lia|]. simpl.
    pose proof (Hrej O ltac:(lia)) as H0.
    rewrite Nat.add_0_r in H0. simpl in H0. rewrite H0.
    rewrite (IH frames (S reads) 0).
    + destruct k; simpl; do 2 f_equal; lia.
    + lia.
    + intros j Hj. specialize (Hrej (S j) ltac:(lia)).
      replace (S reads + j)%nat with (reads + S j)%nat by lia.
      destruct j; exact Hrej.
    + replace (S reads + k)%nat with (reads + S k)%nat by lia.
      destruct k; exact Hno.
Qed.

(** X10: a read of the tabular reader that yields no chunk at all is
    not retried: the chunk loader then reads the variable of its loop,
    which was never bound, and raises UnboundLocalError, after [k + 1]
    reads when [k] rejected reads came first; a chunked construction in
    train mode whose first read yields no chunk raises that error. *)
Theorem chunk_without_rows {tensor} (w : world tensor) :
  (forall (path : string) (k frames reads : nat) (skip : Z),
     (k < frames)%nat ->
     (forall j, (j < k)%nat ->
        read_csv w path (reads + j) (skip_at skip j) = CsvRaises) ->
     read_csv w path (reads + k) (skip_at skip k) = CsvNoChunk ->
     _get_chunk w path frames reads skip
     = (skip_at skip k, (reads + k + 1)%nat,
        raise (UnboundLocalError "chunk")))
  /\ (forall (c : CfgNode) (n : Z),
        0 < LOADER_CHUNK_SIZE (DATA c) ->
        manifest w (manifest_path (blank c "train" n)) <> None ->
        (0 < recursion_limit w)%nat ->
        read_csv w (manifest_path (blank c "train" n)) 0 (SKIP_ROWS (DATA c))
        = CsvNoChunk ->
        __init__ w c "train" n = raise (UnboundLocalError "chunk")).
Proof.
  split.
  - intros path k. apply get_chunk_no_chunk.
  - intros c n Hchunk Hm Hlim Hno. unfold __init__. simpl negb. cbv iota.
    unfold _construct_loader.
    destruct (manifest w (manifest_path (blank c "train" n))) as [lines|];
      [|congruence].
    unfold read_rows.
    assert (Hu : use_chunk_loading (reset_loader (blank c "train" n)) = true).
    { simpl. apply Z.ltb_lt in Hchunk. now rewrite Hchunk. }
    rewrite Hu.
    change (manifest_path (reset_loader (blank c "train" n)))
      with (manifest_path (blank c "train" n)).
    change (skip_rows (reset_loader (blank c "train" n)))
      with (SKIP_ROWS (DATA c)).
    rewrite (get_chunk_no_chunk w _ 0 (recursion_limit w) 0 (SKIP_ROWS (DATA c)) Hlim).
    + reflexivity.
    + intros j Hj. lia.
    + exact Hno.
Qed.

Lemma chunk_without_rows_witness :
  __init__ header_only_world chunk_cfg "train" 100
  = raise (UnboundLocalError "chunk").
Proof.
  apply (proj2 (chunk_without_rows header_only_world) chunk_cfg 100).
  - simpl. lia.
  - discriminate.
  - simpl. lia.
  - reflexivity.
Defined.

Lemma get_chunk_ext {tensor} (w1 w2 : world tensor) (path : string) :
  (forall reads skip, read_csv w1 path reads skip = read_csv w2 path reads skip) ->
  forall (frames reads : nat) (skip : Z),
    _get_chunk w1 path frames reads skip = _get_chunk w2 path frames reads skip.
Proof.
  intros Hext. induction frames as [|frames IH]; intros reads skip; simpl;
    [reflexivity|].
  rewrite Hext. destruct (read_csv w2 path reads skip); auto.
Qed.

(** X11: where the rows of a construction come from.  In val and test
    modes, and in train mode without a positive chunk size, the tabular
    reader is never used: two worlds with the same manifest file give
    the same construction.  In train mode with a positive chunk size
    the lines of the file are never parsed: the file only has to exist,
    and two worlds whose readers answer alike give the same
    construction. *)
Theorem construction_sources {tensor} (w1 w2 : world tensor) (c : CfgNode)
    (m : string) (n : Z) :
  (m <> "train" \/ LOADER_CHUNK_SIZE (DATA c) <= 0 ->
   manifest w1 (manifest_path (blank c m n))
   = manifest w2 (manifest_path (blank c m n)) ->
   __init__ w1 c m n = __init__ w2 c m n)
  /\ (m = "train" -> 0 < LOADER_CHUNK_SIZE (DATA c) ->
      manifest w1 (manifest_path (blank c m n)) <> None ->
      manifest w2 (manifest_path (blank c m n)) <> None ->
      same_reader w1 w2 (manifest_path (blank c m n)) ->
      __init__ w1 c m n = __init__ w2 c m n).
Proof.
  split.
  - intros Hno Hm. unfold __init__.
    destruct (negb (str_in m ["train"; "val"; "test"])); [reflexivity|].
    assert (Hu : use_chunk_loading (reset_loader (blank c m n)) = false).
    { change (use_chunk_loading (reset_loader (blank c m n)))
        with (str_in m ["train"] && (0 <? LOADER_CHUNK_SIZE (DATA c))).
      rewrite str_in_singleton.
      destruct Hno as [Hne | Hle].
      - apply String.eqb_neq in Hne. now rewrite Hne.
      - apply andb_false_iff. right. apply Z.ltb_ge. exact Hle. }
    unfold _construct_loader. rewrite Hm.
    destruct (manifest w2 (manifest_path (blank c m n))); [|reflexivity].
    unfold read_rows. rewrite Hu. reflexivity.
  - intros -> Hchunk H1 H2 [Hlim Hext]. unfold __init__.
    simpl negb. cbv iota.
    assert (Hu : use_chunk_loading (reset_loader (blank c "train" n)) = true).
    { simpl. apply Z.ltb_lt in Hchunk. now rewrite Hchunk. }
    unfold _construct_loader.
    destruct (manifest w1 (manifest_path (blank c "train" n))); [|congruence].
    destruct (manifest w2 (manifest_path (blank c "train" n))); [|congruence].
    unfold read_rows. rewrite Hu.
    change (manifest_path (reset_loader (blank c "train" n)))
      with (manifest_path (blank c "train" n)).
    rewrite Hlim, (get_chunk_ext w1 w2 _ Hext). reflexivity.
Qed.

Lemma construction_sources_witness :
  __init__ one_line_world one_line_cfg "val" 100
  = __init__ other_one_line_world one_line_cfg "val" 100.
Proof.
  apply (proj1 (construction_sources one_line_world other_one_line_world
                  one_line_cfg "val" 100)).
  - left. discriminate.
  - reflexivity.
Defined.

Example chunked_construction :
  match __init__ offset_world chunk_cfg "train" 100 with
  | inr ds =>
      _path_to_videos ds = ["videos/a.mp4"; "videos/b.mp4"]
      /\ _labels ds = [3; 0] /\ skip_rows ds = 0
  | inl _ => False
  end.
Proof. vm_compute. repeat split; reflexivity. Qed.

Lemma read_rows_same_rows {tensor} (w : world tensor) (a b a1 : Kinetics)
    (lines rows : list string) :
  use_chunk_loading a = use_chunk_loading b ->
  manifest_path a = manifest_path b ->
  skip_rows a = skip_rows b ->
  read_rows w a lines = inr (a1, rows) ->
  exists b1, read_rows w b lines = inr (b1, rows).
Proof.
  intros Hu Hp Hs. unfold read_rows. rewrite <- Hu, <- Hp, <- Hs.
  destruct (use_chunk_loading a).
  - destruct (_get_chunk w (manifest_path a) (recursion_limit w) 0 (skip_rows a))
      as [[skip reads] [e | r]]; simpl; [discriminate|].
    intros H. injection H as _ <-. eauto.
  - intros H. injection H as _ <-. eauto.
Qed.

(** X12: constructing again replaces the lists, it does not append to
    them: when [_construct_loader] has returned an object, calling it
    on that object, with the same manifest and reader, returns an
    object with the same paths, labels and spatial-temporal indices. *)
Theorem reconstruction_replaces {tensor} (w : world tensor)
    (self ds : Kinetics) :
  _construct_loader w self = inr ds ->
  exists ds',
    _construct_loader w ds = inr ds'
    /\ _path_to_videos ds' = _path_to_videos ds
    /\ _labels ds' = _labels ds
    /\ _spatial_temporal_idx ds' = _spatial_temporal_idx ds.
Proof.
  intros Hc.
  destruct (construct_inv _ _ _ Hc)
    as (lines & self1 & rows & es & Hm & Hr & Hes & ->).
  destruct (read_rows_lists _ _ _ _ _ Hr) as (Ep & El & Est & Ecfg & Emode & _).
  destruct (read_rows_flags _ _ _ _ _ Hr) as (_ & Eu & _).
  destruct (append_entries_fields es self1 0)
    as (Fp & Fl & Fst & Fcfg & Fmode & _).
  destruct (append_entries_flags es self1 0) as (Fu & _).
  change (cfg (reset_loader self)) with (cfg self) in Ecfg.
  change (mode (reset_loader self)) with (mode self) in Emode.
  change (use_chunk_loading (reset_loader self)) with (use_chunk_loading self) in Eu.
  assert (Hpath : manifest_path (append_entries self1 0 es) = manifest_path self).
  { unfold manifest_path. now rewrite Fcfg, Fmode, Ecfg, Emode. }
  assert (Hcfg : cfg (append_entries self1 0 es) = cfg self)
    by now rewrite Fcfg, Ecfg.
  destruct (read_rows_same_rows w (reset_loader self)
              (reset_loader (append_entries self1 0 es)) self1 lines rows)
    as [self2 Hr2]; try assumption.
  - simpl. now rewrite Fu, Eu.
  - unfold manifest_path in *. simpl. exact (eq_sym Hpath).
  - simpl. now rewrite Hcfg.
  - destruct (read_rows_lists _ _ _ _ _ Hr2) as (Ep2 & El2 & Est2 & Ecfg2 & _).
    change (cfg (reset_loader (append_entries self1 0 es)))
      with (cfg (append_entries self1 0 es)) in Ecfg2.
    assert (Hm2 : manifest w (manifest_path (append_entries self1 0 es))
                  = Some lines) by (rewrite Hpath; exact Hm).
    assert (Hes1 : map_result (parse_row (cfg self1) (manifest_path self)) rows
                   = inr es) by (rewrite Ecfg; exact Hes).
    assert (Hes2 : map_result
                     (parse_row (cfg self2)
                        (manifest_path (append_entries self1 0 es))) rows
                   = inr es) by (rewrite Ecfg2, Hcfg, Hpath; exact Hes).
    rewrite (construct_returns w _ self2 lines rows es Hm2 Hr2 Hes2).
    rewrite (construct_returns w self self1 lines rows es Hm Hr Hes1) in Hc.
    rewrite Ep in Hc. rewrite Ep2. simpl app in *.
    destruct (0 <? Z.of_nat (length (map fst es))); [|discriminate].
    exists (append_entries self2 0 es). split; [reflexivity|].
    destruct (append_entries_fields es self2 0) as (-> & -> & -> & _).
    rewrite Fp, Fl, Fst, Ep, El, Est, Ep2, El2, Est2. auto.
Qed.

Lemma reconstruction_replaces_witness :
  exists ds',
    _construct_loader one_line_world one_line_dataset = inr ds'
    /\ _path_to_videos ds' = _path_to_videos one_line_dataset
    /\ _labels ds' = _labels one_line_dataset
    /\ _spatial_temporal_idx ds' = _spatial_temporal_idx one_line_dataset.
Proof.
  apply (reconstruction_replaces one_line_world (blank one_line_cfg "val" 100)
           one_line_dataset).
  vm_compute. reflexivity.
Defined.

(* ===================================================================== *)
(** ** Further properties of the selection and of the alignment *)
(* ===================================================================== *)

(** X13: a selection of sampling parameters that returns has equal scale
    bounds, so no scale jitter in any mode.  In test mode the crop size
    is TEST_CROP_SIZE; with several spatial crops both bounds are
    TEST_CROP_SIZE too and the spatial index lies in [0, crops); with
    one crop the bounds are the first training jitter scale. *)
Theorem selection_without_jitter (self : Kinetics) (index : Z) (p : sampling) :
  sampling_params self index = inr p ->
  min_scale p = max_scale p
  /\ (mode self = "test" ->
      crop_size p = TEST_CROP_SIZE (DATA (cfg self))
      /\ (1 < NUM_SPATIAL_CROPS (TEST (cfg self)) ->
          min_scale p = TEST_CROP_SIZE (DATA (cfg self))
          /\ 0 <= spatial_sample_index p < NUM_SPATIAL_CROPS (TEST (cfg self)))
      /\ (NUM_SPATIAL_CROPS (TEST (cfg self)) <= 1 ->
          spatial_sample_index p = 1
          /\ py_getitem (TRAIN_JITTER_SCALES (DATA (cfg self))) 0
             = inr (min_scale p))).
Proof.
  unfold sampling_params.
  destruct (str_in (mode self) ["train"; "val"]) eqn:Etv.
  - destruct (py_getitem _ 0) as [e | mn]; simpl; [discriminate|].
    destruct (py_getitem _ 1) as [e | mx]; simpl; [discriminate|].
    destruct (mn =? mx) eqn:E1; simpl; [|discriminate].
    destruct (mx =? 256) eqn:E2; simpl; [|discriminate].
    intros H. injection H as <-. simpl. split; [lia|].
    intros Hm. rewrite Hm in Etv. discriminate.
  - destruct (str_in (mode self) ["test"]); [|discriminate].
    destruct (py_getitem (_spatial_temporal_idx self) index) as [e | st];
      simpl; [discriminate|].
    unfold py_floordiv, py_mod.
    destruct (NUM_SPATIAL_CROPS (TEST (cfg self)) =? 0) eqn:E0; simpl;
      [discriminate|].
    destruct (1 <? NUM_SPATIAL_CROPS (TEST (cfg self))) eqn:E1; simpl.
    + rewrite Z.eqb_refl. simpl. intros H. injection H as <-. simpl.
      split; [reflexivity|]. intros _. split; [reflexivity|]. split.
      * intros _. split; [reflexivity|]. apply Z.mod_pos_bound. lia.
      * intros Hle. lia.
    + destruct (py_getitem _ 0) as [e | j] eqn:Ej; simpl; [discriminate|].
      rewrite Z.eqb_refl. simpl. intros H. injection H as <-. simpl.
      split; [reflexivity|]. intros _. split; [reflexivity|]. split.
      * intros Hlt. lia.
      * intros _. auto.
Qed.

Lemma selection_without_jitter_witness :
  min_scale params_3crops = max_scale params_3crops
  /\ (mode test_3crops = "test" ->
      crop_size params_3crops = TEST_CROP_SIZE (DATA (cfg test_3crops))
      /\ (1 < NUM_SPATIAL_CROPS (TEST (cfg test_3crops)) ->
          min_scale params_3crops = TEST_CROP_SIZE (DATA (cfg test_3crops))
          /\ 0 <= spatial_sample_index params_3crops
             < NUM_SPATIAL_CROPS (TEST (cfg test_3crops)))
      /\ (NUM_SPATIAL_CROPS (TEST (cfg test_3crops)) <= 1 ->
          spatial_sample_index params_3crops = 1
          /\ py_getitem (TRAIN_JITTER_SCALES (DATA (cfg test_3crops))) 0
             = inr (min_scale params_3crops))).
Proof.
  apply (selection_without_jitter test_3crops 0 params_3crops).
  reflexivity.
Defined.

Example single_crop_selection :
  sampling_params
    (example_dataset "test" (example_cfg "," [256; 320] 224 224 1 2) 100
       ["videos/a.mp4"] [1] [5]) 0
  = ret {| temporal_sample_index := 5; spatial_sample_index := 1;
           min_scale := 256; max_scale := 256; crop_size := 224 |}.
Proof. reflexivity. Qed.

Lemma is_min_unique (y y' : Z) (l l' : list Z) :
  (forall x, In x l <-> In x l') -> is_min y l -> is_min y' l' -> y = y'.
Proof.
  intros Hs [Hin Hle] [Hin' Hle'].
  apply Hs in Hin. apply Hs in Hin'.
  specialize (Hle _ Hin'). specialize (Hle' _ Hin). lia.
Qed.

Lemma is_max_unique (y y' : Z) (l l' : list Z) :
  (forall x, In x l <-> In x l') -> is_max y l -> is_max y' l' -> y = y'.
Proof.
  intros Hs [Hin Hle] [Hin' Hle'].
  apply Hs in Hin. apply Hs in Hin'.
  specialize (Hle _ Hin'). specialize (Hle' _ Hin). lia.
Qed.

Lemma same_points_same_coordinates (f : Q * Q -> Z) (box box' : polygon) :
  (forall pt, In pt box <-> In pt box') ->
  forall x, In x (map f box) <-> In x (map f box').
Proof.
  intros Hs x. rewrite !in_map_iff.
  split; intros (pt & <- & Hin); exists pt; split; auto; now apply Hs.
Qed.

Lemma py_min_same (l l' : list Z) :
  l <> [] -> l' <> [] -> (forall x, In x l <-> In x l') -> py_min l = py_min l'.
Proof.
  intros Hl Hl' Hs.
  destruct (py_min_spec l Hl) as (y & -> & Hy).
  destruct (py_min_spec l' Hl') as (y' & -> & Hy').
  f_equal. eapply is_min_unique; eauto.
Qed.

Lemma py_max_same (l l' : list Z) :
  l <> [] -> l' <> [] -> (forall x, In x l <-> In x l') -> py_max l = py_max l'.
Proof.
  intros Hl Hl' Hs.
  destruct (py_max_spec l Hl) as (y & -> & Hy).
  destruct (py_max_spec l' Hl') as (y' & -> & Hy').
  f_equal. eapply is_max_unique; eauto.
Qed.

(** X14: the rectangle of a polygon depends only on the set of its
    points: two polygons with the same points, in any order and with any
    repetitions, are reduced to the same rectangle (and both raise when
    there is no point). *)
Theorem align_box_set_of_points (box box' : polygon) :
  (forall pt, In pt box <-> In pt box') -> align_box box = align_box box'.
Proof.
  intros Hs.
  destruct box as [|pt box].
  { destruct box' as [|pt' box']; [reflexivity|].
    exfalso. apply (Hs pt'). now left. }
  destruct box' as [|pt' box'].
  { exfalso. apply (Hs pt). now left. }
  unfold align_box.
  rewrite (py_min_same (map (fun coord => py_int_of_float (fst coord)) (pt :: box))
             (map (fun coord => py_int_of_float (fst coord)) (pt' :: box')));
    try discriminate; [|now apply same_points_same_coordinates].
  rewrite (py_max_same (map (fun coord => py_int_of_float (fst coord)) (pt :: box))
             (map (fun coord => py_int_of_float (fst coord)) (pt' :: box')));
    try discriminate; [|now apply same_points_same_coordinates].
  rewrite (py_min_same (map (fun coord => py_int_of_float (snd coord)) (pt :: box))
             (map (fun coord => py_int_of_float (snd coord)) (pt' :: box')));
    try discriminate; [|now apply same_points_same_coordinates].
  rewrite (py_max_same (map (fun coord => py_int_of_float (snd coord)) (pt :: box))
             (map (fun coord => py_int_of_float (snd coord)) (pt' :: box')));
    try discriminate; [|now apply same_points_same_coordinates].
  reflexivity.
Qed.

Lemma align_box_set_of_points_witness :
  align_box [(2#1, 7#1); (8#1, 3#1); (5#1, 10#1)]%Q
  = align_box [(5#1, 10#1); (2#1, 7#1); (5#1, 10#1); (8#1, 3#1)]%Q.
Proof.
  apply (align_box_set_of_points
           [(2#1, 7#1); (8#1, 3#1); (5#1, 10#1)]%Q
           [(5#1, 10#1); (2#1, 7#1); (5#1, 10#1); (8#1, 3#1)]%Q).
  intros pt. simpl. tauto.
Defined.

Section ReturnedIndex.
Context {tensor packed : Type}.
Variable w : world tensor.
Variable to_float_cthw : tensor -> tensor.
Variable spatial_sampling : CfgNode -> bool -> sampling -> tensor -> tensor.
Variable pack_pathway_output : CfgNode -> tensor -> packed.

Local Abbreviation getitem' :=
  (__getitem__ w to_float_cthw spatial_sampling pack_pathway_output).

(** X15: the index a fetch returns is the requested index, or, outside
    test mode, an index of the dataset drawn as a replacement; in test
    mode it is always the requested index. *)
Theorem returned_index_requested_or_drawn (self : Kinetics) (index : Z)
    (it : item packed) :
  returned (getitem' self index) = inr it ->
  (index_out it = index
   \/ (mode self <> "test" /\ in_dataset self (index_out it)))
  /\ (mode self = "test" -> index_out it = index).
Proof.
  intros H.
  assert (Hor : index_out it = index
                \/ (mode self <> "test" /\ in_dataset self (index_out it))).
  { revert H. unfold __getitem__.
    destruct (sampling_params self index) as [e | p]; [discriminate|].
    intros H.
    destruct (retry_returned_inv w to_float_cthw spatial_sampling
                pack_pathway_output _ _ _ _ _ _ _ _ H)
      as (self1 & self2 & i & idx & done' & Hs & Ha & Ht & Hsa).
    destruct (attempt_return_inv w to_float_cthw spatial_sampling
                pack_pathway_output _ _ _ _ _ _ Ha)
      as (path & frames & ti & td & bi & store & _ & _ & _ & _ & _ & Hfin).
    destruct (finish_inv to_float_cthw spatial_sampling pack_pathway_output
                _ _ _ _ _ _ _ _ Hfin)
      as (frame_nums & l & _ & _ & _ & _ & Hidx & _).
    pose proof (retry_tried_invariant w to_float_cthw spatial_sampling
                  pack_pathway_output
                  (fun j => j = index
                            \/ (mode self <> "test" /\ in_dataset self j))
                  self p) as Hinv.
    assert (Hall : Forall (fun j => j = index
                                    \/ (mode self <> "test" /\ in_dataset self j))
                     (tried (retry w to_float_cthw spatial_sampling
                               pack_pathway_output p
                               (Z.to_nat (_num_retries self)) 0 None [] self
                               index))).
    { apply Hinv.
      - intros s s' i' j j' Hss Hj Hat.
        destruct (attempt_continue_cases w to_float_cthw spatial_sampling
                    pack_pathway_output _ _ _ _ _ _ Hat) as [-> | Hd];
          [exact Hj|].
        right. rewrite Hss in Hd. exact Hd.
      - now rewrite with_kpts_same.
      - now left.
      - constructor. }
    rewrite Ht in Hall. apply Forall_inv in Hall.
    rewrite Hidx. exact Hall. }
  split; [exact Hor|].
  intros Hm. destruct Hor as [Ho | [Hne _]]; [exact Ho | congruence].
Qed.

End ReturnedIndex.

Lemma returned_index_requested_or_drawn_witness :
  (index_out triangle_item = 0
   \/ (mode (one_video "train" 100) <> "test"
       /\ in_dataset (one_video "train" 100) (index_out triangle_item)))
  /\ (mode (one_video "train" 100) = "test" -> index_out triangle_item = 0).
Proof.
  apply (returned_index_requested_or_drawn (triangle_world 4) unit_float
           unit_sampling unit_pack (one_video "train" 100) 0 triangle_item).
  vm_compute. reflexivity.
Defined.
